(** * Nano Banana AI Editor: the Gemini edit client and the App state logic

    A shallow embedding of [src/services/geminiService.ts] and of the state
    handling of [src/App.tsx].  Asynchronous functions are embedded in a small
    free monad [Async] whose nodes are the effects the source performs
    (state setters, [console.error], the two awaited calls); [try]/[catch]/
    [finally] are combinators on it.  Two semantics are given: [run], which
    executes one handler to completion against an oracle for the awaited
    calls, and [step], an event loop in which a handler is suspended at each
    [await] and other events may be handled before it resumes. *)

From Stdlib Require Import Ascii String.
From stdpp Require Import base option list strings gmap.

Local Open Scope string_scope.
Local Open Scope list_scope.

(** ** JavaScript strings

    A [string] stands for a JavaScript string all of whose UTF-16 code units
    are below 256; one [ascii] is one code unit. *)

Module Js.

(** The code units below 256 that [String.prototype.trim] strips: TAB, LF,
    VT, FF, CR, SPACE and NO-BREAK SPACE. *)
Definition isWhiteSpace (c : ascii) : bool :=
  let n := nat_of_ascii c in
  (((9 <=? n) && (n <=? 13)) || (n =? 32) || (n =? 160))%nat.

Fixpoint trimStart (s : string) : string :=
  match s with
  | EmptyString => EmptyString
  | String c rest => if isWhiteSpace c then trimStart rest else s
  end.

Fixpoint trimEnd (s : string) : string :=
  match s with
  | EmptyString => EmptyString
  | String c rest =>
      match trimEnd rest with
      | EmptyString => if isWhiteSpace c then EmptyString else String c EmptyString
      | kept => String c kept
      end
  end.

Definition trim (s : string) : string := trimEnd (trimStart s).

(** [whitespaceOnly s]: every code unit of [s] is white space (so the empty
    string is whitespace-only). *)
Fixpoint whitespaceOnly (s : string) : bool :=
  match s with
  | EmptyString => true
  | String c rest => isWhiteSpace c && whitespaceOnly rest
  end.

(** [s.startsWith(p)] *)
Fixpoint startsWith (s p : string) : bool :=
  match p, s with
  | EmptyString, _ => true
  | String _ _, EmptyString => false
  | String a p', String b s' => if Ascii.eqb a b then startsWith s' p' else false
  end.

(** [s.split(sep)] for a one-unit separator: never empty, one more piece
    than there are separators. *)
Fixpoint split (sep : ascii) (s : string) : list string :=
  match s with
  | EmptyString => [EmptyString]
  | String c rest =>
      if Ascii.eqb c sep then EmptyString :: split sep rest
      else match split sep rest with
           | [] => [String c EmptyString]
           | piece :: pieces => String c piece :: pieces
           end
  end.

(** Truthiness of a string value: only the empty string is falsy. *)
Definition truthy (s : string) : bool := negb (String.eqb s "").

(** Truthiness of [string | null | undefined]. *)
Definition truthy_opt (o : option string) : bool :=
  match o with
  | Some s => truthy s
  | None => false
  end.

(** [a || b] on string-or-undefined operands with a string fallback. *)
Definition or_else (o : option string) (fallback : string) : string :=
  match o with
  | Some s => if truthy s then s else fallback
  | None => fallback
  end.

Arguments or_else : simpl never.

(** A thrown value: [new Error(message)]. *)
Inductive Error := mkError (message : string).

(** How an awaited promise settles. *)
Inductive Outcome (A : Type) : Type :=
  | Resolved (a : A)
  | Rejected (e : Error).
Arguments Resolved {A} a.
Arguments Rejected {A} e.

(** One argument of a [console.error] call. *)
Inductive LogArg :=
  | LogText (s : string)
  | LogError (e : Error).

End Js.

Import Js.

(** ** The slice of [@google/genai] the client touches *)

Module GenAI.

Inductive Modality := TEXT | IMAGE | AUDIO.

(** The request is the object literal built by [editImageWithGemini]. *)
Record InlineData := { req_data : option string; req_mimeType : string }.

Inductive RequestPart :=
  | InlineDataPart (inline : InlineData)
  | TextPart (text : string).

Record RequestContent := { req_parts : list RequestPart }.
Record GenerateContentConfig := { responseModalities : list Modality }.

Record GenerateContentParameters := {
  model : string;
  contents : RequestContent;
  config : GenerateContentConfig
}.

(** The response: every level the source reaches through [?.] may be
    absent. *)
Record Blob := { data : string; mimeType : string }.
Record Part := { inlineData : option Blob; text : option string }.
Record Content := { parts : option (list Part) }.
Record Candidate := { content : option Content }.
Record GenerateContentResponse := { candidates : option (list Candidate) }.

(** [new GoogleGenAI({ apiKey })] *)
Record GoogleGenAI := { apiKey : string }.

End GenAI.

Import GenAI.

(** ** Browser files and the App state *)

Record File := { name : string; type : string }.

Record ImageState := { file : File; url : string }.

Record AppState := {
  originalImage : option ImageState;
  editedImageUrl : option string;
  prompt : string;
  isLoading : bool;
  error : option string
}.

(** The five [useState] setters. *)
Inductive Setter :=
  | setOriginalImage (v : option ImageState)
  | setEditedImageUrl (v : option string)
  | setPrompt (v : string)
  | setIsLoading (v : bool)
  | setError (v : option string).

Definition apply_setter (u : Setter) (s : AppState) : AppState :=
  match u with
  | setOriginalImage v =>
      {| originalImage := v; editedImageUrl := editedImageUrl s;
         prompt := prompt s; isLoading := isLoading s; error := error s |}
  | setEditedImageUrl v =>
      {| originalImage := originalImage s; editedImageUrl := v;
         prompt := prompt s; isLoading := isLoading s; error := error s |}
  | setPrompt v =>
      {| originalImage := originalImage s; editedImageUrl := editedImageUrl s;
         prompt := v; isLoading := isLoading s; error := error s |}
  | setIsLoading v =>
      {| originalImage := originalImage s; editedImageUrl := editedImageUrl s;
         prompt := prompt s; isLoading := v; error := error s |}
  | setError v =>
      {| originalImage := originalImage s; editedImageUrl := editedImageUrl s;
         prompt := prompt s; isLoading := isLoading s; error := v |}
  end.

(** ** Asynchronous code *)

Inductive Async (A : Type) : Type :=
  | Ret (a : A)
  | Throw (e : Error)
  | SetState (u : Setter) (k : Async A)
  | ConsoleError (args : list LogArg) (k : Async A)
  | ResetFileInput (k : Async A)
  | AwaitGenerateContent (client : GoogleGenAI) (params : GenerateContentParameters)
      (k : Outcome GenerateContentResponse -> Async A)
  | AwaitFileToBase64 (f : File) (k : Outcome string -> Async A).
Arguments Ret {A} a.
Arguments Throw {A} e.
Arguments SetState {A} u k.
Arguments ConsoleError {A} args k.
Arguments ResetFileInput {A} k.
Arguments AwaitGenerateContent {A} client params k.
Arguments AwaitFileToBase64 {A} f k.

Fixpoint bind {A B : Type} (p : Async A) (f : A -> Async B) : Async B :=
  match p with
  | Ret a => f a
  | Throw e => Throw e
  | SetState u k => SetState u (bind k f)
  | ConsoleError args k => ConsoleError args (bind k f)
  | ResetFileInput k => ResetFileInput (bind k f)
  | AwaitGenerateContent c q k => AwaitGenerateContent c q (fun o => bind (k o) f)
  | AwaitFileToBase64 fl k => AwaitFileToBase64 fl (fun o => bind (k o) f)
  end.

#[export] Instance Async_ret : MRet Async := @Ret.
#[export] Instance Async_bind : MBind Async := fun A B f p => bind p f.

(** [try { body } catch (e) { handler e }] *)
Fixpoint try_catch {A : Type} (body : Async A) (handler : Error -> Async A) : Async A :=
  match body with
  | Ret a => Ret a
  | Throw e => handler e
  | SetState u k => SetState u (try_catch k handler)
  | ConsoleError args k => ConsoleError args (try_catch k handler)
  | ResetFileInput k => ResetFileInput (try_catch k handler)
  | AwaitGenerateContent c q k =>
      AwaitGenerateContent c q (fun o => try_catch (k o) handler)
  | AwaitFileToBase64 fl k => AwaitFileToBase64 fl (fun o => try_catch (k o) handler)
  end.

(** [try { body } finally { cleanup }]: the cleanup runs on both exits and
    the body's completion is kept (the cleanups of the source never throw
    or return). *)
Fixpoint try_finally {A : Type} (body : Async A) (cleanup : Async unit) : Async A :=
  match body with
  | Ret a => bind cleanup (fun _ => Ret a)
  | Throw e => bind cleanup (fun _ => Throw e)
  | SetState u k => SetState u (try_finally k cleanup)
  | ConsoleError args k => ConsoleError args (try_finally k cleanup)
  | ResetFileInput k => ResetFileInput (try_finally k cleanup)
  | AwaitGenerateContent c q k =>
      AwaitGenerateContent c q (fun o => try_finally (k o) cleanup)
  | AwaitFileToBase64 fl k => AwaitFileToBase64 fl (fun o => try_finally (k o) cleanup)
  end.

(** [await p]: the value of a resolved promise, a throw for a rejected one. *)
Definition settle {A : Type} (o : Outcome A) : Async A :=
  match o with
  | Resolved a => Ret a
  | Rejected e => Throw e
  end.

Definition set (u : Setter) : Async unit := SetState u (Ret tt).
Definition console_error (args : list LogArg) : Async unit := ConsoleError args (Ret tt).

(** ** [src/services/geminiService.ts] *)

Module geminiService.

(** What evaluating the module yields: the clients it constructed, in order,
    and either its bindings or the error thrown at its top level. *)
Record Bindings := { API_KEY : string; ai : GoogleGenAI }.
Record Evaluation := { constructed : list GoogleGenAI; completion : Outcome Bindings }.

(** The top level of the module; [env] is [process.env]. *)
Definition evaluate (env : gmap string string) : Evaluation :=
  match env !! "API_KEY" with
  | Some key =>
      if negb (truthy key)
      then {| constructed := [];
              completion := Rejected (mkError "API_KEY environment variable not set.") |}
      else let client := {| apiKey := key |} in
           {| constructed := [client];
              completion := Resolved {| API_KEY := key; ai := client |} |}
  | None =>
      {| constructed := [];
         completion := Rejected (mkError "API_KEY environment variable not set.") |}
  end.

(** The argument of [ai.models.generateContent]. *)
Definition request (base64ImageData : option string) (mimeType prompt : string)
  : GenerateContentParameters :=
  {| model := "gemini-2.5-flash-image";
     contents := {| req_parts :=
       [ InlineDataPart {| req_data := base64ImageData; req_mimeType := mimeType |};
         TextPart prompt ] |};
     config := {| responseModalities := [IMAGE] |} |}.

(** [response.candidates?.[0]?.content?.parts || []]; an array, even an
    empty one, is truthy. *)
Definition scannedParts (response : GenerateContentResponse) : list Part :=
  default [] (cs ← candidates response; c ← cs !! 0%nat; ct ← content c; parts ct).

(** The [for ... of] loop with its [return]; [otherwise] is what follows the
    loop. *)
Fixpoint findImagePart (ps : list Part) (otherwise : Async string) : Async string :=
  match ps with
  | [] => otherwise
  | part :: rest =>
      match inlineData part with
      | Some blob => Ret (data blob)
      | None => findImagePart rest otherwise
      end
  end.

(** [base64ImageData] is declared a string; the caller computes it as
    [url.split(',')[1]], which is undefined for a URL without a comma. *)
Definition editImageWithGemini (ai : GoogleGenAI)
    (base64ImageData : option string) (mimeType prompt : string) : Async string :=
  try_catch
    (AwaitGenerateContent ai (request base64ImageData mimeType prompt) (fun settled =>
       response ← settle settled;
       findImagePart (scannedParts response)
         (Throw (mkError "No image data found in the API response."))))
    (fun error =>
       console_error [LogText "Error calling Gemini API:"; LogError error];;
       Throw (mkError "Failed to generate image with Gemini API.")).

(** The error thrown after the loop, and the one the [catch] block throws. *)
Definition NoImagePart : Error := mkError "No image data found in the API response.".
Definition TransportFailure : Error := mkError "Failed to generate image with Gemini API.".

End geminiService.

Import geminiService.

(** ** [src/App.tsx]: the handlers *)

Module App.

Definition initialState : AppState :=
  {| originalImage := None; editedImageUrl := None; prompt := "";
     isLoading := false; error := None |}.

(** What the returned JSX shows of the state. *)
Record View := {
  originalShown : option string;      (* the [src] of the "Original" image *)
  fileInputShown : bool;              (* the upload placeholder with its input *)
  promptDisabled : bool;
  errorShown : option string;         (* the red paragraph *)
  generateDisabled : bool;
  spinnerShown : bool;                (* the overlay of the result panel *)
  editedShown : option string;        (* the [src] of the "Edited" image *)
  downloadName : option string;       (* the [download] attribute of the link *)
  resultPlaceholderShown : bool
}.

Definition render (s : AppState) : View :=
  let hasImage := bool_decide (is_Some (originalImage s)) in
  let hasResult := truthy_opt (editedImageUrl s) in
  {| originalShown := url <$> originalImage s;
     fileInputShown := negb hasImage;
     promptDisabled := isLoading s || negb hasImage;
     errorShown := if truthy_opt (error s) then error s else None;
     generateDisabled := isLoading s || negb hasImage || negb (truthy (trim (prompt s)));
     spinnerShown := isLoading s;
     editedShown := if hasResult then editedImageUrl s else None;
     downloadName :=
       if hasResult
       then Some ("edited-" +:+ or_else (name ∘ file <$> originalImage s) "image.png")
       else None;
     resultPlaceholderShown := negb hasResult && negb (isLoading s) |}.

(** [files] is [event.target.files]. *)
Definition handleFileChange (files : option (list File)) : Async unit :=
  match files ≫= (.!! 0%nat) with
  | Some file =>
      if negb (startsWith (type file) "image/")
      then set (setError (Some "Please upload a valid image file (PNG, JPG, etc.)."))
      else
        set (setError None);;
        set (setEditedImageUrl None);;
        AwaitFileToBase64 file (fun settled =>
          url ← settle settled;
          set (setOriginalImage (Some {| file := file; url := url |})))
  | None => Ret tt
  end.

(** [document.getElementById('file-upload')] finds the input only when the
    render on screen, that of the state [s], shows the upload placeholder. *)
Definition handleRemoveImage (s : AppState) : Async unit :=
  set (setOriginalImage None);;
  set (setEditedImageUrl None);;
  set (setError None);;
  if fileInputShown (render s) then ResetFileInput (Ret tt) else Ret tt.

(** The [onChange] of the prompt text area. *)
Definition handlePromptChange (value : string) : Async unit := set (setPrompt value).

(** [handleSubmit] closes over [originalImage] and [prompt] as of the render
    in which it was created: the state [s] it is given. *)
Definition handleSubmit (ai : GoogleGenAI) (s : AppState) : Async unit :=
  match originalImage s with
  | Some image =>
      if negb (truthy (trim (prompt s)))
      then set (setError (Some "Please upload an image and enter a prompt."))
      else
        set (setIsLoading true);;
        set (setError None);;
        set (setEditedImageUrl None);;
        try_finally
          (try_catch
             (let base64Data := split "," (url image) !! 1%nat in
              let mimeType := type (file image) in
              newImageBase64 ← editImageWithGemini ai base64Data mimeType (prompt s);
              set (setEditedImageUrl
                     (Some ("data:" +:+ mimeType +:+ ";base64," +:+ newImageBase64))))
             (fun e =>
                console_error [LogError e];;
                set (setError (Some "Failed to edit image. Please try again."))))
          (set (setIsLoading false))
  | None => set (setError (Some "Please upload an image and enter a prompt."))
  end.

(** The three messages the handlers put in the [error] cell. *)
Definition InvalidFileType : string := "Please upload a valid image file (PNG, JPG, etc.).".
Definition MissingInputs : string := "Please upload an image and enter a prompt.".
Definition EditFailed : string := "Failed to edit image. Please try again.".

End App.

Import App.

(** ** Semantics *)

(** What the environment sees of an execution, oldest first. *)
Inductive Observed :=
  | CalledGenerateContent (client : GoogleGenAI) (params : GenerateContentParameters)
  | CalledFileToBase64 (f : File)
  | LoggedError (args : list LogArg)
  | FileInputReset
  | UnhandledRejection (e : Error).

Record World := { ui : AppState; trace : list Observed }.

Definition observe (x : Observed) (w : World) : World :=
  {| ui := ui w; trace := trace w ++ [x] |}.

Definition update (u : Setter) (w : World) : World :=
  {| ui := apply_setter u (ui w); trace := trace w |}.

(** The requests sent so far. *)
Definition isRequest (x : Observed) : bool :=
  match x with
  | CalledGenerateContent _ _ => true
  | _ => false
  end.

Definition requestsSent (w : World) : list Observed := List.filter isRequest (trace w).

(** What [editImageWithGemini] sends. *)
Definition sentRequest (client : GoogleGenAI) (base64ImageData : option string)
    (mimeType promptText : string) : Observed :=
  CalledGenerateContent client (request base64ImageData mimeType promptText).

(** *** One handler run to completion

    The awaited calls are answered at once by an oracle: the network, and
    [fileToBase64] of [utils/fileUtils], of which only the settled promise
    matters here. *)
Record Oracle := {
  generateContent : GoogleGenAI -> GenerateContentParameters -> Outcome GenerateContentResponse;
  fileToBase64 : File -> Outcome string
}.

Fixpoint run {A : Type} (o : Oracle) (p : Async A) (w : World) : World * Outcome A :=
  match p with
  | Ret a => (w, Resolved a)
  | Throw e => (w, Rejected e)
  | SetState u k => run o k (update u w)
  | ConsoleError args k => run o k (observe (LoggedError args) w)
  | ResetFileInput k => run o k (observe FileInputReset w)
  | AwaitGenerateContent c q k =>
      run o (k (generateContent o c q)) (observe (CalledGenerateContent c q) w)
  | AwaitFileToBase64 f k =>
      run o (k (fileToBase64 o f)) (observe (CalledFileToBase64 f) w)
  end.

(** *** The event loop

    A handler runs until its next [await], where it is parked; user events
    and settlements of parked tasks are then handled in any order. *)
Inductive Suspended :=
  | OnGenerateContent (k : Outcome GenerateContentResponse -> Async unit)
  | OnFileToBase64 (k : Outcome string -> Async unit).

Record Config := { world : World; pending : list Suspended }.

Fixpoint advance (p : Async unit) (c : Config) : Config :=
  match p with
  | Ret _ => c
  | Throw e => {| world := observe (UnhandledRejection e) (world c); pending := pending c |}
  | SetState u k => advance k {| world := update u (world c); pending := pending c |}
  | ConsoleError args k =>
      advance k {| world := observe (LoggedError args) (world c); pending := pending c |}
  | ResetFileInput k =>
      advance k {| world := observe FileInputReset (world c); pending := pending c |}
  | AwaitGenerateContent cl q k =>
      {| world := observe (CalledGenerateContent cl q) (world c);
         pending := pending c ++ [OnGenerateContent k] |}
  | AwaitFileToBase64 f k =>
      {| world := observe (CalledFileToBase64 f) (world c);
         pending := pending c ++ [OnFileToBase64 k] |}
  end.

Inductive Event :=
  | FileInputChange (files : option (list File))
  | RemoveClick
  | PromptInput (value : string)
  | GenerateClick
  | GenerateContentSettles (i : nat) (o : Outcome GenerateContentResponse)
  | FileToBase64Settles (i : nat) (o : Outcome string).

Definition unpark (i : nat) (c : Config) : Config :=
  {| world := world c; pending := delete i (pending c) |}.

(** A user event is possible only on a control the current render shows
    enabled; a settlement only for a task parked on that call. *)
Definition step (ai : GoogleGenAI) (e : Event) (c : Config) : option Config :=
  let s := ui (world c) in
  let v := render s in
  match e with
  | FileInputChange files =>
      if fileInputShown v then Some (advance (handleFileChange files) c) else None
  | RemoveClick =>
      if fileInputShown v then None else Some (advance (handleRemoveImage s) c)
  | PromptInput value =>
      if promptDisabled v then None else Some (advance (handlePromptChange value) c)
  | GenerateClick =>
      if generateDisabled v then None else Some (advance (handleSubmit ai s) c)
  | GenerateContentSettles i o =>
      match pending c !! i with
      | Some (OnGenerateContent k) => Some (advance (k o) (unpark i c))
      | _ => None
      end
  | FileToBase64Settles i o =>
      match pending c !! i with
      | Some (OnFileToBase64 k) => Some (advance (k o) (unpark i c))
      | _ => None
      end
  end.

Fixpoint steps (ai : GoogleGenAI) (es : list Event) (c : Config) : option Config :=
  match es with
  | [] => Some c
  | e :: rest =>
      match step ai e c with
      | Some c' => steps ai rest c'
      | None => None
      end
  end.

(** Start-up: [App.tsx] imports the service module, so an error thrown by
    its top level aborts the program before anything is rendered. *)
Definition firstRender : Config :=
  {| world := {| ui := initialState; trace := [] |}; pending := [] |}.

Definition boot (env : gmap string string) : Outcome (GoogleGenAI * Config) :=
  match completion (evaluate env) with
  | Resolved bindings => Resolved (ai bindings, firstRender)
  | Rejected e => Rejected e
  end.

(** [reachable env c]: the program started under [env] can be in [c]. *)
Definition reachable (env : gmap string string) (c : Config) : Prop :=
  exists client es, boot env = Resolved (client, firstRender)
                    /\ steps client es firstRender = Some c.

(** [parkedBy p]: the task [p] leaves behind at its first [await], if it
    reaches one. *)
Fixpoint parkedBy (p : Async unit) : option Suspended :=
  match p with
  | Ret _ | Throw _ => None
  | SetState _ k | ConsoleError _ k | ResetFileInput k => parkedBy k
  | AwaitGenerateContent _ _ k => Some (OnGenerateContent k)
  | AwaitFileToBase64 _ k => Some (OnFileToBase64 k)
  end.

Definition awaitsResponse (t : Suspended) : bool :=
  match t with
  | OnGenerateContent _ => true
  | OnFileToBase64 _ => false
  end.

(** The number of edit requests in flight. *)
Definition inFlight (c : Config) : nat := length (List.filter awaitsResponse (pending c)).

(** The world in which [p] parks or ends. *)
Fixpoint syncWorld (p : Async unit) (w : World) : World :=
  match p with
  | Ret _ => w
  | Throw e => observe (UnhandledRejection e) w
  | SetState u k => syncWorld k (update u w)
  | ConsoleError args k => syncWorld k (observe (LoggedError args) w)
  | ResetFileInput k => syncWorld k (observe FileInputReset w)
  | AwaitGenerateContent cl q _ => observe (CalledGenerateContent cl q) w
  | AwaitFileToBase64 f _ => observe (CalledFileToBase64 f) w
  end.

(** *** What the handlers do once their awaited call has settled *)

(** The value the scanning loop returns, if it returns. *)
Fixpoint firstImage (ps : list Part) : option string :=
  match ps with
  | [] => None
  | part :: rest =>
      match inlineData part with
      | Some blob => Some (data blob)
      | None => firstImage rest
      end
  end.

(** The client failed for [cause]: both [catch] blocks and the [finally]. *)
Definition clientFailed (cause : Error) (w : World) : World :=
  update (setIsLoading false)
    (update (setError (Some EditFailed))
       (observe (LoggedError [LogError TransportFailure])
          (observe (LoggedError [LogText "Error calling Gemini API:"; LogError cause]) w))).

(** The rest of [handleSubmit], for an image of type [mimeType]. *)
Definition submitSettles (mimeType : string) (settled : Outcome GenerateContentResponse)
    (w : World) : World :=
  match settled with
  | Resolved response =>
      match firstImage (scannedParts response) with
      | Some d =>
          update (setIsLoading false)
            (update (setEditedImageUrl (Some ("data:" +:+ mimeType +:+ ";base64," +:+ d))) w)
      | None => clientFailed NoImagePart w
      end
  | Rejected e => clientFailed e w
  end.

(** The rest of [handleFileChange] for the file [f]; nothing catches a
    failed read. *)
Definition readSettles (f : File) (settled : Outcome string) (w : World) : World :=
  match settled with
  | Resolved dataUrl => update (setOriginalImage (Some {| file := f; url := dataUrl |})) w
  | Rejected e => observe (UnhandledRejection e) w
  end.

(** *** The invariant of the event loop *)

(** A parked task is the rest of [handleSubmit] or of [handleFileChange]. *)
Definition known (ai : GoogleGenAI) (t : Suspended) : Prop :=
  (exists s, parkedBy (handleSubmit ai s) = Some t)
  \/ (exists files, parkedBy (handleFileChange files) = Some t).

Definition usesClient (ai : GoogleGenAI) (x : Observed) : Prop :=
  match x with
  | CalledGenerateContent cl _ => cl = ai
  | _ => True
  end.

(** Every request went through [ai]; the loading flag is set exactly while
    one request is in flight, and then no edited result is stored. *)
Record Consistent (ai : GoogleGenAI) (c : Config) : Prop := {
  parked_known : Forall (known ai) (pending c);
  one_client : Forall (usesClient ai) (trace (world c));
  loading_tracks_request :
    (inFlight c = 0%nat /\ isLoading (ui (world c)) = false)
    \/ (inFlight c = 1%nat /\ isLoading (ui (world c)) = true
        /\ editedImageUrl (ui (world c)) = None)
}.

(** The event picks a file that passes the type check. *)
Definition choosesImage (e : Event) : Prop :=
  exists files f, e = FileInputChange files
                  /\ files ≫= (.!! 0%nat) = Some f
                  /\ startsWith (type f) "image/" = true.

(** *** What the validations guarantee along a run *)

(** [freeOf sep s]: the code unit [sep] does not occur in [s]. *)
Fixpoint freeOf (sep : ascii) (s : string) : bool :=
  match s with
  | EmptyString => true
  | String c rest => negb (Ascii.eqb c sep) && freeOf sep rest
  end.

(** A request built by [editImageWithGemini] through [ai] for an image type
    and a prompt that is not blank. *)
Definition vettedRequest (ai : GoogleGenAI) (x : Observed) : Prop :=
  match x with
  | CalledGenerateContent cl q =>
      exists base64Data mimeType promptText,
        cl = ai /\ q = request base64Data mimeType promptText
        /\ startsWith mimeType "image/" = true
        /\ whitespaceOnly promptText = false
  | _ => True
  end.

(** A data URL of an image type, as [handleSubmit] builds it. *)
Definition imageDataUrl (u : string) : Prop :=
  exists mimeType payload,
    startsWith mimeType "image/" = true
    /\ u = "data:" +:+ mimeType +:+ ";base64," +:+ payload.

(** The messages that can be on display. *)
Definition intakeOrEditError (e : option string) : Prop :=
  e = None \/ e = Some InvalidFileType \/ e = Some EditFailed.

(** A parked task resumes as the rest of a submission of an image type, or
    as the rest of the intake of an image file. *)
Definition vettedTask (t : Suspended) : Prop :=
  match t with
  | OnGenerateContent k =>
      exists mimeType,
        startsWith mimeType "image/" = true
        /\ forall settled c,
             advance (k settled) c =
             {| world := submitSettles mimeType settled (world c); pending := pending c |}
  | OnFileToBase64 k =>
      exists f,
        startsWith (type f) "image/" = true
        /\ forall settled c,
             advance (k settled) c =
             {| world := readSettles f settled (world c); pending := pending c |}
  end.

Record Vetted (ai : GoogleGenAI) (c : Config) : Prop := {
  vetted_image :
    forall image, originalImage (ui (world c)) = Some image ->
                  startsWith (type (file image)) "image/" = true;
  vetted_result :
    forall u, editedImageUrl (ui (world c)) = Some u -> imageDataUrl u;
  vetted_error : intakeOrEditError (error (ui (world c)));
  vetted_requests : Forall (vettedRequest ai) (trace (world c));
  vetted_parked : Forall vettedTask (pending c)
}.

(** The Generate clicks among the events. *)
Definition isGenerateClick (e : Event) : bool :=
  match e with
  | GenerateClick => true
  | _ => false
  end.

Definition generateClicks (es : list Event) : nat :=
  length (List.filter isGenerateClick es).

(** The event delivers the response to an edit request. *)
Definition isResponse (e : Event) : bool :=
  match e with
  | GenerateContentSettles _ _ => true
  | _ => false
  end.

(** ** Concrete data for the examples *)

Module Scenario.

Definition photo : File := {| name := "photo.png"; type := "image/png" |}.
Definition unnamed : File := {| name := ""; type := "image/png" |}.
Definition notes : File := {| name := "notes.txt"; type := "text/plain" |}.
Definition portrait : File := {| name := "portrait.jpg"; type := "image/jpeg" |}.

Definition photoUrl : string := "data:image/png;base64,QUJD".

Definition loaded (f : File) (promptText : string) : AppState :=
  {| originalImage := Some {| file := f; url := photoUrl |}; editedImageUrl := None;
     prompt := promptText; isLoading := false; error := None |}.

(** An image is loaded and an earlier result is on display. *)
Definition edited (f : File) (promptText : string) : AppState :=
  {| originalImage := Some {| file := f; url := photoUrl |};
     editedImageUrl := Some "data:image/png;base64,b2xk";
     prompt := promptText; isLoading := false; error := None |}.

(** Nothing is loaded, yet a result is on display. *)
Definition orphaned : AppState :=
  {| originalImage := None; editedImageUrl := Some "data:image/png;base64,b2xk";
     prompt := ""; isLoading := false; error := None |}.

Definition imagePart (d : string) : Part :=
  {| inlineData := Some {| data := d; mimeType := "image/png" |}; text := None |}.
Definition textPart (t : string) : Part := {| inlineData := None; text := Some t |}.

Definition candidateOf (ps : list Part) : Candidate :=
  {| content := Some {| parts := Some ps |} |}.
Definition responseOf (ps : list Part) : GenerateContentResponse :=
  {| candidates := Some [candidateOf ps] |}.

Definition answering (settled : Outcome GenerateContentResponse) : Oracle :=
  {| generateContent := fun _ _ => settled; fileToBase64 := fun _ => Resolved photoUrl |}.

Definition gemini : GoogleGenAI := {| apiKey := "k-123" |}.

Definition showing (s : AppState) : World := {| ui := s; trace := [] |}.
Definition idleAt (s : AppState) : Config := {| world := showing s; pending := [] |}.

Definition withKey : gmap string string := {[ "API_KEY" := "k-123" ]}.
Definition withEmptyKey : gmap string string := {[ "API_KEY" := "" ]}.
Definition withoutKey : gmap string string := {[ "HOME" := "/root" ]}.

(** What the file picker of the scenario hands over. *)
Definition picked (f : File) : option (list File) := Some [f].

(** Upload [photo.png], type the prompt, press Generate. *)
Definition uploadAndSubmit : list Event :=
  [ FileInputChange (picked photo); FileToBase64Settles 0 (Resolved photoUrl);
    PromptInput "add a hat"; GenerateClick ].

(** The storage refuses the read. *)
Definition unreadable : Oracle :=
  {| generateContent := fun _ _ => Rejected (mkError "offline");
     fileToBase64 := fun _ => Rejected (mkError "NotReadableError") |}.

(** The scenario up to the moment the request is in flight, and after the
    model has answered with one image. *)
Definition editRun : list Event :=
  uploadAndSubmit ++ [ GenerateContentSettles 0 (Resolved (responseOf [imagePart "Zm9v"])) ].

Definition whileLoading : Config := default firstRender (steps gemini uploadAndSubmit firstRender).
Definition afterEdit : Config := default firstRender (steps gemini editRun firstRender).

(** After the edit, Generate is pressed again; then the image is removed
    and [portrait.jpg] is picked and read while that request is in flight. *)
Definition resubmitted : Config :=
  default firstRender (steps gemini (editRun ++ [GenerateClick]) firstRender).

Definition replaceWhileLoading : list Event :=
  [ RemoveClick; FileInputChange (picked portrait);
    FileToBase64Settles 1 (Resolved photoUrl) ].

Definition replaced : Config :=
  default firstRender
    (steps gemini (editRun ++ GenerateClick :: replaceWhileLoading) firstRender).

(** The image is removed while its request is in flight. *)
Definition removedWhileLoading : Config :=
  default firstRender (steps gemini (uploadAndSubmit ++ [RemoveClick]) firstRender).

End Scenario.

(** * Properties *)

(** ** Strings *)

Section Strings.

Lemma truthy_false (s : string) : truthy s = false <-> s = "".
Proof.
  unfold truthy. destruct (String.eqb_spec s ""); simpl; split; congruence.
Qed.

Lemma trimEnd_blank (s : string) : trimEnd s = "" <-> whitespaceOnly s = true.
Proof.
  induction s as [|c rest IH]; simpl; [tauto|].
  destruct (trimEnd rest) eqn:Hrest.
  - destruct (isWhiteSpace c); simpl; [tauto|].
    split; [discriminate | intros H; discriminate].
  - split; [discriminate|]. intros H.
    apply andb_prop in H as [_ H]. apply IH in H. discriminate.
Qed.

Lemma whitespaceOnly_trimStart (s : string) :
  whitespaceOnly (trimStart s) = whitespaceOnly s.
Proof.
  induction s as [|c rest IH]; simpl; [reflexivity|].
  destruct (isWhiteSpace c) eqn:Hc; simpl; [exact IH | now rewrite Hc].
Qed.

Lemma trim_blank (s : string) : trim s = "" <-> whitespaceOnly s = true.
Proof. unfold trim. rewrite trimEnd_blank, whitespaceOnly_trimStart. tauto. Qed.

Lemma truthy_trim (s : string) : truthy (trim s) = negb (whitespaceOnly s).
Proof.
  destruct (whitespaceOnly s) eqn:Hs; simpl.
  - apply truthy_false, trim_blank, Hs.
  - destruct (truthy (trim s)) eqn:Ht; [reflexivity|].
    apply truthy_false, trim_blank in Ht. congruence.
Qed.

Example trim_tabs : trim (String "009" " add a hat" +:+ String "010" "") = "add a hat".
Proof. reflexivity. Qed.

Example split_data_url : split "," "data:image/png;base64,QUJD" !! 1%nat = Some "QUJD".
Proof. reflexivity. Qed.

Example split_no_comma : split "," "QUJD" !! 1%nat = None.
Proof. reflexivity. Qed.

End Strings.

(** ** The edit client *)

Section Client.

Variable o : Oracle.
Variable client : GoogleGenAI.
Variable base64ImageData : option string.
Variables mimeType promptText : string.

(** The loop returns at the first part that has [inlineData]. *)
Lemma findImagePart_first (before after : list Part) (part : Part) (blob : Blob)
    (otherwise : Async string) :
  Forall (fun p => inlineData p = None) before ->
  inlineData part = Some blob ->
  findImagePart (before ++ part :: after) otherwise = Ret (data blob).
Proof.
  intros Hbefore Hpart. induction Hbefore as [|p ps Hp _ IH]; simpl.
  - now rewrite Hpart.
  - now rewrite Hp.
Qed.

(** Without such a part it falls through to what follows it. *)
Lemma findImagePart_none (ps : list Part) (otherwise : Async string) :
  Forall (fun p => inlineData p = None) ps ->
  findImagePart ps otherwise = otherwise.
Proof.
  intros Hps. induction Hps as [|p ps Hp _ IH]; simpl; [reflexivity|].
  now rewrite Hp.
Qed.

(** The call, once the network has answered with [response]. *)
Lemma run_editImageWithGemini_resolved (w : World) (response : GenerateContentResponse) :
  generateContent o client (request base64ImageData mimeType promptText) = Resolved response ->
  run o (editImageWithGemini client base64ImageData mimeType promptText) w =
  run o (try_catch
           (findImagePart (scannedParts response) (Throw NoImagePart))
           (fun error =>
              console_error [LogText "Error calling Gemini API:"; LogError error];;
              Throw TransportFailure))
        (observe (sentRequest client base64ImageData mimeType promptText) w).
Proof. intros Hnet. unfold editImageWithGemini. simpl. now rewrite Hnet. Qed.

(** A response without an image part: the error thrown after the loop is
    caught by the function's own [catch], logged, and replaced. *)
Lemma run_editImageWithGemini_no_image (w : World) (response : GenerateContentResponse) :
  generateContent o client (request base64ImageData mimeType promptText) = Resolved response ->
  Forall (fun p => inlineData p = None) (scannedParts response) ->
  run o (editImageWithGemini client base64ImageData mimeType promptText) w =
  (observe (LoggedError [LogText "Error calling Gemini API:"; LogError NoImagePart])
     (observe (sentRequest client base64ImageData mimeType promptText) w),
   Rejected TransportFailure).
Proof.
  intros Hnet Hparts. rewrite (run_editImageWithGemini_resolved _ _ Hnet).
  now rewrite (findImagePart_none _ _ Hparts).
Qed.

(** C1: when the parts the function scans contain a part with inline image
    data, the call resolves to the data of the first such part, whatever
    comes after it; one request has been sent. *)
Theorem editImageWithGemini_first_match (w : World) (response : GenerateContentResponse)
    (before after : list Part) (part : Part) (blob : Blob) :
  generateContent o client (request base64ImageData mimeType promptText) = Resolved response ->
  scannedParts response = before ++ part :: after ->
  Forall (fun p => inlineData p = None) before ->
  inlineData part = Some blob ->
  run o (editImageWithGemini client base64ImageData mimeType promptText) w =
  (observe (sentRequest client base64ImageData mimeType promptText) w, Resolved (data blob)).
Proof.
  intros Hnet Hscan Hbefore Hpart.
  rewrite (run_editImageWithGemini_resolved _ _ Hnet), Hscan.
  now rewrite (findImagePart_first _ _ _ _ _ Hbefore Hpart).
Qed.

(** C9: only the parts of [candidates[0]] are scanned; when none of them has
    inline image data the call fails exactly as for a response without any
    image part, whatever the later candidates hold. *)
Theorem editImageWithGemini_first_candidate_only (w : World)
    (response : GenerateContentResponse) (first : Candidate) (others : list Candidate) :
  generateContent o client (request base64ImageData mimeType promptText) = Resolved response ->
  candidates response = Some (first :: others) ->
  Forall (fun p => inlineData p = None) (default [] (content first ≫= parts)) ->
  scannedParts response = default [] (content first ≫= parts)
  /\ run o (editImageWithGemini client base64ImageData mimeType promptText) w =
     (observe (LoggedError [LogText "Error calling Gemini API:"; LogError NoImagePart])
        (observe (sentRequest client base64ImageData mimeType promptText) w),
      Rejected TransportFailure).
Proof.
  intros Hnet Hcands Hfirst.
  assert (Hscan : scannedParts response = default [] (content first ≫= parts)).
  { unfold scannedParts. rewrite Hcands. simpl. now destruct (content first). }
  split; [exact Hscan|].
  apply (run_editImageWithGemini_no_image w response); [exact Hnet | now rewrite Hscan].
Qed.

(** C10: when [candidates] is absent or empty, or the first candidate has no
    [content], or that content has no [parts], the loop runs over the empty
    list and the call fails through its own error path: what the [catch]
    block receives is the function's "no image" error. *)
Theorem editImageWithGemini_absent_levels (w : World) (response : GenerateContentResponse) :
  generateContent o client (request base64ImageData mimeType promptText) = Resolved response ->
  (candidates response = None
   \/ candidates response = Some []
   \/ exists first others, candidates response = Some (first :: others)
        /\ (content first = None
            \/ exists ct, content first = Some ct /\ parts ct = None)) ->
  scannedParts response = []
  /\ run o (editImageWithGemini client base64ImageData mimeType promptText) w =
     (observe (LoggedError [LogText "Error calling Gemini API:"; LogError NoImagePart])
        (observe (sentRequest client base64ImageData mimeType promptText) w),
      Rejected TransportFailure).
Proof.
  intros Hnet Habsent.
  assert (Hscan : scannedParts response = []).
  { unfold scannedParts.
    destruct Habsent as [H | [H | (first & others & H & [Hc | (ct & Hc & Hp)])]];
      rewrite H; simpl; try reflexivity; rewrite Hc; simpl; [reflexivity|].
    now rewrite Hp. }
  split; [exact Hscan|].
  apply (run_editImageWithGemini_no_image w response); [exact Hnet|]. rewrite Hscan. constructor.
Qed.

(** When the network call rejects, the rejection is logged and replaced. *)
Lemma run_editImageWithGemini_rejected (w : World) (e : Error) :
  generateContent o client (request base64ImageData mimeType promptText) = Rejected e ->
  run o (editImageWithGemini client base64ImageData mimeType promptText) w =
  (observe (LoggedError [LogText "Error calling Gemini API:"; LogError e])
     (observe (sentRequest client base64ImageData mimeType promptText) w),
   Rejected TransportFailure).
Proof. intros Hnet. unfold editImageWithGemini. simpl. now rewrite Hnet. Qed.

End Client.

(** The loop, as a function of the parts. *)
Lemma findImagePart_firstImage (ps : list Part) (otherwise : Async string) :
  findImagePart ps otherwise =
  match firstImage ps with
  | Some d => Ret d
  | None => otherwise
  end.
Proof.
  induction ps as [|part rest IH]; simpl; [reflexivity|].
  now destruct (inlineData part).
Qed.

(** ** Running composed programs *)

Section Run.

Variable o : Oracle.

Lemma run_bind {A B : Type} (p : Async A) (f : A -> Async B) (w : World) :
  run o (p ≫= f) w =
  match run o p w with
  | (w', Resolved a) => run o (f a) w'
  | (w', Rejected e) => (w', Rejected e)
  end.
Proof.
  change (p ≫= f) with (bind p f). revert w.
  induction p as [a|e|u k IH|args k IH|k IH|c q k IH|fl k IH]; intros w; simpl; auto.
Qed.

Lemma run_try_catch {A : Type} (p : Async A) (handler : Error -> Async A) (w : World) :
  run o (try_catch p handler) w =
  match run o p w with
  | (w', Resolved a) => (w', Resolved a)
  | (w', Rejected e) => run o (handler e) w'
  end.
Proof.
  revert w.
  induction p as [a|e|u k IH|args k IH|k IH|c q k IH|fl k IH]; intros w; simpl; auto.
Qed.

Lemma run_try_finally {A : Type} (p : Async A) (cleanup : Async unit) (w : World) :
  run o (try_finally p cleanup) w =
  match run o p w with
  | (w', completion) =>
      match run o cleanup w' with
      | (w'', Resolved _) => (w'', completion)
      | (w'', Rejected e) => (w'', Rejected e)
      end
  end.
Proof.
  revert w.
  induction p as [a|e|u k IH|args k IH|k IH|c q k IH|fl k IH]; intros w; simpl; auto.
  - change (bind cleanup (fun _ => Ret a)) with (cleanup ≫= (fun _ => Ret a)).
    rewrite run_bind. destruct (run o cleanup w) as [w' [[]|e]]; reflexivity.
  - change (bind cleanup (fun _ => Throw e)) with (cleanup ≫= (fun _ : unit => @Throw A e)).
    rewrite run_bind. destruct (run o cleanup w) as [w' [[]|e']]; reflexivity.
Qed.

End Run.

(** ** The handlers, run to completion *)

Section Handlers.

Variable o : Oracle.
Variable client : GoogleGenAI.

(** [handleSubmit] past its guard: the three resets, the client call, and the
    two ways it ends. *)
Lemma run_handleSubmit_started (s : AppState) (image : ImageState) (w : World) :
  originalImage s = Some image ->
  whitespaceOnly (prompt s) = false ->
  run o (handleSubmit client s) w =
  match run o (editImageWithGemini client (split "," (url image) !! 1%nat)
                 (type (file image)) (prompt s))
          (update (setEditedImageUrl None)
             (update (setError None) (update (setIsLoading true) w))) with
  | (w', Resolved d) =>
      (update (setIsLoading false)
         (update (setEditedImageUrl
                    (Some ("data:" +:+ type (file image) +:+ ";base64," +:+ d))) w'),
       Resolved tt)
  | (w', Rejected e) =>
      (update (setIsLoading false)
         (update (setError (Some EditFailed)) (observe (LoggedError [LogError e]) w')),
       Resolved tt)
  end.
Proof.
  intros Himage Hprompt. unfold handleSubmit.
  rewrite Himage, truthy_trim, Hprompt. cbn [negb].
  repeat (rewrite run_bind; cbn [run set]).
  rewrite run_try_finally, run_try_catch, run_bind.
  destruct (run o (editImageWithGemini _ _ _ _) _) as [w' [d|e]]; reflexivity.
Qed.

(** The guard of [handleSubmit] fails exactly when there is no image or the
    prompt is blank, and then the handler is a single [setError]. *)
Lemma handleSubmit_guard (s : AppState) :
  originalImage s = None \/ whitespaceOnly (prompt s) = true ->
  handleSubmit client s = set (setError (Some MissingInputs)).
Proof.
  intros Hguard. unfold handleSubmit.
  destruct (originalImage s) as [image|]; [|reflexivity].
  destruct Hguard as [Hnone | Hblank]; [discriminate|].
  now rewrite truthy_trim, Hblank.
Qed.

(** C3: with no image loaded, or an empty or whitespace-only prompt,
    [handleSubmit] only stores the validation message: nothing is sent (the
    trace is unchanged and no task is parked), the message is shown, and the
    loaded image and the edited result are as before. *)
Theorem handleSubmit_blocked (s : AppState) (w : World) (c : Config) :
  originalImage s = None \/ whitespaceOnly (prompt s) = true ->
  exists w',
    run o (handleSubmit client s) w = (w', Resolved tt)
    /\ trace w' = trace w
    /\ requestsSent w' = requestsSent w
    /\ advance (handleSubmit client s) c =
       {| world := update (setError (Some MissingInputs)) (world c); pending := pending c |}
    /\ errorShown (render (ui w')) = Some MissingInputs
    /\ originalImage (ui w') = originalImage (ui w)
    /\ editedImageUrl (ui w') = editedImageUrl (ui w).
Proof.
  intros Hguard. rewrite (handleSubmit_guard s Hguard).
  exists (update (setError (Some MissingInputs)) w). repeat split.
Qed.

(** C5: a first file whose declared type does not start with "image/" only
    stores the invalid-file message: no read is started, and the loaded
    image, the edited result and the prompt are as before. *)
Theorem handleFileChange_invalid_type (files : option (list File)) (f : File)
    (w : World) (c : Config) :
  files ≫= (.!! 0%nat) = Some f ->
  startsWith (type f) "image/" = false ->
  exists w',
    run o (handleFileChange files) w = (w', Resolved tt)
    /\ error (ui w') = Some InvalidFileType
    /\ errorShown (render (ui w')) = Some InvalidFileType
    /\ trace w' = trace w
    /\ advance (handleFileChange files) c =
       {| world := update (setError (Some InvalidFileType)) (world c); pending := pending c |}
    /\ originalImage (ui w') = originalImage (ui w)
    /\ editedImageUrl (ui w') = editedImageUrl (ui w)
    /\ prompt (ui w') = prompt (ui w)
    /\ isLoading (ui w') = isLoading (ui w).
Proof.
  intros Hfile Htype. unfold handleFileChange. rewrite Hfile, Htype. cbn [negb].
  exists (update (setError (Some InvalidFileType)) w). repeat split.
Qed.

(** [handleSubmit] past its guard, in one piece: the request goes out and
    the rest is [submitSettles] of what the network answers. *)
Lemma run_handleSubmit_settles (s : AppState) (image : ImageState) (w : World) :
  originalImage s = Some image ->
  whitespaceOnly (prompt s) = false ->
  run o (handleSubmit client s) w =
  (submitSettles (type (file image))
     (generateContent o client
        (request (split "," (url image) !! 1%nat) (type (file image)) (prompt s)))
     (observe (sentRequest client (split "," (url image) !! 1%nat) (type (file image))
                 (prompt s))
        (update (setEditedImageUrl None)
           (update (setError None) (update (setIsLoading true) w)))),
   Resolved tt).
Proof.
  intros Himage Hprompt. rewrite (run_handleSubmit_started s image w Himage Hprompt).
  destruct (generateContent o client _) as [response|e] eqn:Hnet.
  - rewrite (run_editImageWithGemini_resolved o client _ _ _ _ response Hnet).
    rewrite findImagePart_firstImage, run_try_catch. unfold submitSettles.
    destruct (firstImage (scannedParts response)); reflexivity.
  - now rewrite (run_editImageWithGemini_rejected o client _ _ _ _ e Hnet).
Qed.

End Handlers.

(** ** The event loop *)

Section EventLoop.

Variable client : GoogleGenAI.

Lemma advance_spec (p : Async unit) (c : Config) :
  advance p c =
  {| world := syncWorld p (world c); pending := pending c ++ option_list (parkedBy p) |}.
Proof.
  revert c. induction p as [a|e|u k IH|args k IH|k IH|cl q k _|fl k _]; intros c; simpl;
    try (rewrite IH; reflexivity); try rewrite app_nil_r; try reflexivity.
  now destruct c.
Qed.

(** A task parked by [handleSubmit]: the guard had passed, and resuming it
    is [submitSettles]; nothing is parked again. *)
Lemma handleSubmit_parked (s : AppState) (t : Suspended) :
  parkedBy (handleSubmit client s) = Some t ->
  exists image k,
    originalImage s = Some image
    /\ whitespaceOnly (prompt s) = false
    /\ t = OnGenerateContent k
    /\ forall settled c,
         advance (k settled) c =
         {| world := submitSettles (type (file image)) settled (world c);
            pending := pending c |}.
Proof.
  unfold handleSubmit. destruct (originalImage s) as [image|]; [|discriminate].
  rewrite truthy_trim. destruct (whitespaceOnly (prompt s)); [discriminate|].
  cbn. intros [= <-]. eexists image, _. do 3 (split; [reflexivity|]).
  intros [response|e] c; cbn; [|reflexivity].
  rewrite findImagePart_firstImage.
  destruct (firstImage (scannedParts response)); reflexivity.
Qed.

(** A task parked by [handleFileChange]: the first file was an image, and
    resuming it is [readSettles]. *)
Lemma handleFileChange_parked (files : option (list File)) (t : Suspended) :
  parkedBy (handleFileChange files) = Some t ->
  exists f k,
    files ≫= (.!! 0%nat) = Some f
    /\ startsWith (type f) "image/" = true
    /\ t = OnFileToBase64 k
    /\ forall settled c,
         advance (k settled) c =
         {| world := readSettles f settled (world c); pending := pending c |}.
Proof.
  unfold handleFileChange. destruct (files ≫= (.!! 0%nat)) as [f|]; [|discriminate].
  destruct (startsWith (type f) "image/") eqn:Htype; [|discriminate].
  cbn. intros [= <-]. eexists f, _. split; [reflexivity|]. split; [exact Htype|].
  split; [reflexivity|].
  intros [dataUrl|e] c; reflexivity.
Qed.

(** A click on the remove button: the input is not on screen then, so only
    the three cells are emptied. *)
Lemma step_remove (c c' : Config) :
  step client RemoveClick c = Some c' ->
  c' = {| world := update (setError None)
                     (update (setEditedImageUrl None)
                        (update (setOriginalImage None) (world c)));
          pending := pending c |}.
Proof.
  unfold step, handleRemoveImage.
  destruct (fileInputShown (render (ui (world c)))); [discriminate|].
  now intros [= <-].
Qed.

End EventLoop.

(** ** What holds in every reachable configuration *)

Section Invariant.

Variable client : GoogleGenAI.

Lemma inFlight_park (w : World) (ts : list Suspended) (t : option Suspended) :
  inFlight {| world := w; pending := ts ++ option_list t |} =
  (length (List.filter awaitsResponse ts)
   + match t with Some x => if awaitsResponse x then 1 else 0 | None => 0 end)%nat.
Proof.
  unfold inFlight. simpl. rewrite List.filter_app, length_app.
  destruct t as [x|]; simpl; [|reflexivity]. now destruct (awaitsResponse x).
Qed.

Lemma inFlight_unpark (i : nat) (c : Config) (t : Suspended) :
  pending c !! i = Some t ->
  inFlight c = (inFlight (unpark i c) + if awaitsResponse t then 1 else 0)%nat.
Proof.
  intros Hi. unfold inFlight, unpark. simpl.
  rewrite delete_take_drop. rewrite <- (take_drop_middle _ _ _ Hi) at 1.
  rewrite !List.filter_app, !length_app. simpl.
  destruct (awaitsResponse t); simpl; lia.
Qed.

Lemma known_parked (p : Async unit) (ts : list Suspended) :
  Forall (known client) ts ->
  (forall t, parkedBy p = Some t -> known client t) ->
  Forall (known client) (ts ++ option_list (parkedBy p)).
Proof.
  intros Hts Hp. apply Forall_app. split; [exact Hts|].
  destruct (parkedBy p) as [t|]; simpl; [|constructor].
  constructor; [now apply Hp | constructor].
Qed.

Lemma usesClient_submitSettles (mime : string) (settled : Outcome GenerateContentResponse)
    (w : World) :
  Forall (usesClient client) (trace w) ->
  Forall (usesClient client) (trace (submitSettles mime settled w)).
Proof.
  intros Hw. unfold submitSettles, clientFailed.
  destruct settled as [response|e]; [destruct (firstImage _)|]; simpl; [exact Hw| |];
    rewrite <- app_assoc; (apply Forall_app; split; [exact Hw|]); repeat constructor.
Qed.

Lemma isLoading_submitSettles (mime : string) (settled : Outcome GenerateContentResponse)
    (w : World) :
  isLoading (ui (submitSettles mime settled w)) = false.
Proof.
  unfold submitSettles. destruct settled as [response|e]; [destruct (firstImage _)|];
    reflexivity.
Qed.

Lemma step_consistent (e : Event) (c c' : Config) :
  Consistent client c -> step client e c = Some c' -> Consistent client c'.
Proof.
  intros [Hknown Htrace Hload] Hstep. destruct e as [files| |value| |i settled|i settled];
    unfold step in Hstep; cbn [render fileInputShown promptDisabled generateDisabled] in Hstep.
  - (* a file is picked *)
    destruct (bool_decide _); [discriminate|]. cbn [negb] in Hstep.
    injection Hstep as <-. rewrite advance_spec. split; simpl.
    + apply known_parked; [exact Hknown|]. intros t Ht. right. now exists files.
    + unfold handleFileChange. destruct (files ≫= (.!! 0%nat)) as [f|]; [|exact Htrace].
      destruct (startsWith (type f) "image/"); simpl; [|exact Htrace].
      apply Forall_app. split; [exact Htrace | repeat constructor].
    + rewrite inFlight_park. fold (inFlight c).
      unfold handleFileChange. destruct (files ≫= (.!! 0%nat)) as [f|]; simpl.
      * destruct (startsWith (type f) "image/"); simpl; rewrite Nat.add_0_r.
        -- destruct Hload as [[? ?]|(? & ? & ?)]; [left | right]; auto.
        -- exact Hload.
      * rewrite Nat.add_0_r. exact Hload.
  - (* the image is removed *)
    change (step client RemoveClick c = Some c') in Hstep.
    apply step_remove in Hstep as ->. split; simpl.
    + exact Hknown.
    + exact Htrace.
    + unfold inFlight. simpl. fold (inFlight c).
      destruct Hload as [[? ?]|(? & ? & ?)]; [left | right]; auto.
  - (* the prompt is edited *)
    destruct (isLoading (ui (world c)) || _); [discriminate|].
    injection Hstep as <-. split; simpl.
    + exact Hknown.
    + exact Htrace.
    + exact Hload.
  - (* Generate is clicked *)
    destruct (isLoading (ui (world c))) eqn:Hidle; [discriminate|].
    destruct (originalImage (ui (world c))) as [image|] eqn:Himage; [|discriminate].
    rewrite bool_decide_eq_true_2 in Hstep by eauto.
    destruct (truthy (trim (prompt (ui (world c))))) eqn:Hprompt; [|discriminate].
    cbn [negb orb] in Hstep. injection Hstep as <-. rewrite advance_spec.
    destruct Hload as [[Hnone _]|(_ & Habs & _)]; [|congruence].
    unfold handleSubmit. rewrite Himage, Hprompt. split; simpl.
    + apply Forall_app. split; [exact Hknown|]. constructor; [|constructor].
      left. exists (ui (world c)). unfold handleSubmit. now rewrite Himage, Hprompt.
    + apply Forall_app. split; [exact Htrace | repeat constructor].
    + right. unfold inFlight. simpl. rewrite List.filter_app, length_app.
      fold (inFlight c). rewrite Hnone. auto.
  - (* a response arrives *)
    destruct (pending c !! i) as [[k|k]|] eqn:Hi; [|discriminate..].
    injection Hstep as <-.
    pose proof (proj1 (Forall_lookup _ _) Hknown i _ Hi) as [[s Hk]|[files Hk]].
    + apply handleSubmit_parked in Hk as (image & k' & _ & _ & [= <-] & Hresume).
      rewrite Hresume. pose proof (inFlight_unpark i c _ Hi) as Hcount. simpl in Hcount.
      split; simpl.
      * now apply Forall_delete.
      * now apply usesClient_submitSettles.
      * left. split; [|apply isLoading_submitSettles].
        unfold inFlight, unpark in *. simpl in *.
        destruct Hload as [[Hnone _]|(Hone & _)]; lia.
    + apply handleFileChange_parked in Hk as (f & k' & _ & _ & [=] & _).
  - (* a file has been read *)
    destruct (pending c !! i) as [[k|k]|] eqn:Hi; [discriminate| |discriminate].
    injection Hstep as <-.
    pose proof (proj1 (Forall_lookup _ _) Hknown i _ Hi) as [[s Hk]|[files Hk]].
    + apply handleSubmit_parked in Hk as (image & k' & _ & _ & [=] & _).
    + apply handleFileChange_parked in Hk as (f & k' & _ & _ & [= <-] & Hresume).
      rewrite Hresume. pose proof (inFlight_unpark i c _ Hi) as Hcount. simpl in Hcount.
      rewrite Nat.add_0_r in Hcount. split; simpl.
      * now apply Forall_delete.
      * destruct settled as [dataUrl|err]; simpl; [exact Htrace|].
        apply Forall_app. split; [exact Htrace | repeat constructor].
      * unfold inFlight, unpark in *. simpl in *. rewrite <- Hcount.
        destruct settled as [dataUrl|err]; exact Hload.
Qed.

Lemma steps_consistent (es : list Event) (c c' : Config) :
  Consistent client c -> steps client es c = Some c' -> Consistent client c'.
Proof.
  revert c. induction es as [|e es IH]; intros c Hc Hsteps; simpl in Hsteps.
  - now injection Hsteps as <-.
  - destruct (step client e c) as [c1|] eqn:Hstep; [|discriminate].
    eapply IH; [|exact Hsteps]. eapply step_consistent; eauto.
Qed.

Lemma firstRender_consistent : Consistent client firstRender.
Proof. split; simpl; [constructor | constructor | left; split; reflexivity]. Qed.

End Invariant.

(** ** Submissions, intake and start-up *)

Lemma reachable_consistent (env : gmap string string) (c : Config) :
  reachable env c ->
  exists key, env !! "API_KEY" = Some key /\ key <> ""
              /\ Consistent {| apiKey := key |} c.
Proof.
  intros (cl & es & Hboot & Hsteps). unfold boot, evaluate in Hboot.
  destruct (env !! "API_KEY") as [key|]; [|discriminate].
  destruct (truthy key) eqn:Hkey; [|discriminate]. simpl in Hboot.
  injection Hboot as <-. exists key. split; [reflexivity|]. split.
  - intros ->. discriminate.
  - eapply steps_consistent; [apply firstRender_consistent | exact Hsteps].
Qed.

(** C2, evaluated: the model answers with text only.  The "no image" error
    is thrown inside the [try] block, so the function's own [catch] logs it
    and what the caller gets is the transport message instead. *)
Theorem no_image_part_reported_as_transport_failure :
  run (Scenario.answering (Resolved (Scenario.responseOf [Scenario.textPart "Sorry, no."])))
    (editImageWithGemini Scenario.gemini (Some "QUJD") "image/png" "add a hat")
    (Scenario.showing initialState) =
  ({| ui := initialState;
      trace := [ sentRequest Scenario.gemini (Some "QUJD") "image/png" "add a hat";
                 LoggedError [ LogText "Error calling Gemini API:";
                               LogError (mkError "No image data found in the API response.") ] ] |},
   Rejected (mkError "Failed to generate image with Gemini API.")).
Proof. reflexivity. Qed.

(** C7: when the network call of a submission rejects, the client logs the
    rejection and fails with "Failed to generate image with Gemini API.";
    [handleSubmit] logs that failure, shows the one generic message
    "Failed to edit image. Please try again.", clears the loading flag and
    shows no edited image.  This holds for the handler run on its own and,
    in the event loop, for the request in flight of any consistent
    configuration. *)
Theorem submission_rejected (o : Oracle) (client : GoogleGenAI) (s : AppState)
    (image : ImageState) (w : World) (e : Error) :
  originalImage s = Some image ->
  whitespaceOnly (prompt s) = false ->
  generateContent o client
    (request (split "," (url image) !! 1%nat) (type (file image)) (prompt s)) = Rejected e ->
  snd (run o (editImageWithGemini client (split "," (url image) !! 1%nat)
                (type (file image)) (prompt s)) w)
  = Rejected (mkError "Failed to generate image with Gemini API.")
  /\ (exists w',
        run o (handleSubmit client s) w = (w', Resolved tt)
        /\ trace w' = trace w ++
             [ sentRequest client (split "," (url image) !! 1%nat) (type (file image))
                 (prompt s);
               LoggedError [LogText "Error calling Gemini API:"; LogError e];
               LoggedError [LogError (mkError "Failed to generate image with Gemini API.")] ]
        /\ originalImage (ui w') = originalImage (ui w)
        /\ error (ui w') = Some "Failed to edit image. Please try again."
        /\ isLoading (ui w') = false
        /\ editedImageUrl (ui w') = None
        /\ errorShown (render (ui w')) = Some "Failed to edit image. Please try again."
        /\ spinnerShown (render (ui w')) = false
        /\ editedShown (render (ui w')) = None
        /\ downloadName (render (ui w')) = None)
  /\ (forall (c : Config) (i : nat) (k : Outcome GenerateContentResponse -> Async unit),
        Consistent client c ->
        pending c !! i = Some (OnGenerateContent k) ->
        exists c',
          step client (GenerateContentSettles i (Rejected e)) c = Some c'
          /\ errorShown (render (ui (world c'))) = Some "Failed to edit image. Please try again."
          /\ spinnerShown (render (ui (world c'))) = false
          /\ editedShown (render (ui (world c'))) = None
          /\ downloadName (render (ui (world c'))) = None
          /\ originalImage (ui (world c')) = originalImage (ui (world c))
          /\ inFlight c' = 0%nat).
Proof.
  intros Himage Hprompt Hnet. split; [|split].
  - now rewrite (run_editImageWithGemini_rejected o client _ _ _ w e Hnet).
  - rewrite (run_handleSubmit_settles o client s image w Himage Hprompt), Hnet.
    eexists. split; [reflexivity|]. simpl. rewrite <- !app_assoc. repeat split.
  - intros c i k Hc Hi. pose proof Hc as [Hknown _ Hload].
    pose proof (inFlight_unpark i c _ Hi) as Hcount. simpl in Hcount.
    destruct Hload as [[Hnone _]|(Hone & _ & Hedit)]; [lia|].
    pose proof (proj1 (Forall_lookup _ _) Hknown i _ Hi) as [[s' Hk]|[files Hk]].
    + apply handleSubmit_parked in Hk as (image' & k' & _ & _ & [= <-] & Hresume).
      eexists. split; [simpl; rewrite Hi, Hresume; reflexivity|].
      assert (Hcount' : inFlight (unpark i c) = 0%nat) by lia.
      simpl. split_and!; try reflexivity.
      * unfold render. simpl. now rewrite Hedit.
      * unfold render. simpl. now rewrite Hedit.
      * exact Hcount'.
    + apply handleFileChange_parked in Hk as (f & k' & _ & _ & [=] & _).
Qed.

Lemma or_else_named (n fallback : string) : n <> "" -> or_else (Some n) fallback = n.
Proof.
  intros Hn. unfold or_else. destruct (truthy n) eqn:Ht; [reflexivity|].
  apply truthy_false in Ht. contradiction.
Qed.

Lemma render_edited (s : AppState) (dataUrl : string) :
  truthy dataUrl = true ->
  editedImageUrl s = Some dataUrl ->
  editedShown (render s) = Some dataUrl
  /\ downloadName (render s)
     = Some ("edited-" +:+ or_else (name ∘ file <$> originalImage s) "image.png").
Proof. intros Ht Hs. unfold render. simpl. rewrite Hs. simpl. now rewrite Ht. Qed.

(** The scenario of the specification, in the event loop from the first
    render: [photo.png] is uploaded, the prompt typed, Generate pressed and
    the model answers with one image part. *)
Example scenario_edit :
  (fun c => (editedShown (render (ui (world c))), downloadName (render (ui (world c))),
             requestsSent (world c)))
    <$> steps Scenario.gemini
          (Scenario.uploadAndSubmit ++
           [ GenerateContentSettles 0
               (Resolved (Scenario.responseOf [Scenario.imagePart "Zm9v"])) ])
          firstRender
  = Some (Some "data:image/png;base64,Zm9v", Some "edited-photo.png",
          [ sentRequest Scenario.gemini (Some "QUJD") "image/png" "add a hat" ]).
Proof. reflexivity. Qed.

(** That run is one the program started with an API key can make. *)
Example scenario_reachable :
  exists c, reachable Scenario.withKey c
            /\ downloadName (render (ui (world c))) = Some "edited-photo.png".
Proof.
  eexists. split.
  - exists Scenario.gemini,
      (Scenario.uploadAndSubmit ++
       [ GenerateContentSettles 0
           (Resolved (Scenario.responseOf [Scenario.imagePart "Zm9v"])) ]).
    split; reflexivity.
  - reflexivity.
Qed.

(** C4 as stated fails in two ways.  A file whose name is empty gets the
    fallback name; and when the image is removed while its request is in
    flight (upload, prompt, Generate, remove, response), the result that
    arrives is offered as "edited-image.png" although the file was
    "photo.png". *)
Lemma download_name_falls_back :
  downloadName (render (ui (fst
    (run (Scenario.answering (Resolved (Scenario.responseOf [Scenario.imagePart "Zm9v"])))
       (handleSubmit Scenario.gemini (Scenario.loaded Scenario.unnamed "add a hat"))
       (Scenario.showing (Scenario.loaded Scenario.unnamed "add a hat"))))))
  = Some "edited-image.png"
  /\ Some "edited-image.png" <> Some ("edited-" +:+ name Scenario.unnamed)
  /\ (fun c => (editedShown (render (ui (world c))), downloadName (render (ui (world c)))))
       <$> steps Scenario.gemini
             (Scenario.uploadAndSubmit ++
              [ RemoveClick;
                GenerateContentSettles 0
                  (Resolved (Scenario.responseOf [Scenario.imagePart "Zm9v"])) ])
             firstRender
     = Some (Some "data:image/png;base64,Zm9v", Some "edited-image.png")
  /\ Some "edited-image.png" <> Some ("edited-" +:+ name Scenario.photo).
Proof. split_and!; [reflexivity | discriminate | reflexivity | discriminate]. Qed.

(** C4, amended: after a successful edit request the result shown is the data
    URL made of the declared type of the file submitted and of the returned
    payload.  The download link is named after the image that is loaded when
    the link is rendered: "edited-" and its file name, or "edited-image.png"
    when no image is loaded any more or its name is empty.  In particular it
    is "edited-<original filename>" when the submitted image is still loaded
    and has a name. *)
Theorem edited_result_shown (o : Oracle) (client : GoogleGenAI) (s : AppState)
    (image : ImageState) (w : World) (response : GenerateContentResponse) (d : string) :
  originalImage s = Some image ->
  whitespaceOnly (prompt s) = false ->
  generateContent o client
    (request (split "," (url image) !! 1%nat) (type (file image)) (prompt s))
  = Resolved response ->
  firstImage (scannedParts response) = Some d ->
  (exists w',
     run o (handleSubmit client s) w = (w', Resolved tt)
     /\ editedShown (render (ui w'))
        = Some ("data:" +:+ type (file image) +:+ ";base64," +:+ d)
     /\ spinnerShown (render (ui w')) = false
     /\ originalImage (ui w') = originalImage (ui w)
     /\ downloadName (render (ui w'))
        = Some ("edited-" +:+ or_else (name ∘ file <$> originalImage (ui w)) "image.png")
     /\ (originalImage (ui w) = Some image -> name (file image) <> "" ->
         downloadName (render (ui w')) = Some ("edited-" +:+ name (file image))))
  /\ (forall (c : Config) (i : nat) (k : Outcome GenerateContentResponse -> Async unit),
        parkedBy (handleSubmit client s) = Some (OnGenerateContent k) ->
        pending c !! i = Some (OnGenerateContent k) ->
        exists c',
          step client (GenerateContentSettles i (Resolved response)) c = Some c'
          /\ editedShown (render (ui (world c')))
             = Some ("data:" +:+ type (file image) +:+ ";base64," +:+ d)
          /\ originalImage (ui (world c')) = originalImage (ui (world c))
          /\ downloadName (render (ui (world c')))
             = Some ("edited-" +:+
                     or_else (name ∘ file <$> originalImage (ui (world c))) "image.png")
          /\ (originalImage (ui (world c)) = Some image -> name (file image) <> "" ->
              downloadName (render (ui (world c')))
              = Some ("edited-" +:+ name (file image)))).
Proof.
  intros Himage Hprompt Hnet Hfirst. split.
  - rewrite (run_handleSubmit_settles o client s image w Himage Hprompt), Hnet.
    unfold submitSettles. rewrite Hfirst. eexists. split; [reflexivity|].
    destruct (render_edited
                (ui (update (setIsLoading false)
                       (update (setEditedImageUrl
                                  (Some ("data:" +:+ type (file image) +:+ ";base64," +:+ d)))
                          (observe (sentRequest client (split "," (url image) !! 1%nat)
                                      (type (file image)) (prompt s))
                             (update (setEditedImageUrl None)
                                (update (setError None) (update (setIsLoading true) w)))))))
                ("data:" +:+ type (file image) +:+ ";base64," +:+ d))
      as [Hshown Hname]; [reflexivity | reflexivity |].
    split; [exact Hshown|]. split; [reflexivity|]. split; [reflexivity|].
    split; [exact Hname|]. intros Hsame Hnamed. rewrite Hname. simpl.
    rewrite Hsame. simpl. now rewrite or_else_named.
  - intros c i k Hk Hi.
    apply handleSubmit_parked in Hk as (image' & k' & Himage' & _ & [= <-] & Hresume).
    assert (image' = image) as -> by congruence.
    eexists. split; [simpl; rewrite Hi, Hresume; reflexivity|].
    unfold submitSettles. rewrite Hfirst.
    destruct (render_edited
                (ui (update (setIsLoading false)
                       (update (setEditedImageUrl
                                  (Some ("data:" +:+ type (file image) +:+ ";base64," +:+ d)))
                          (world (unpark i c)))))
                ("data:" +:+ type (file image) +:+ ";base64," +:+ d))
      as [Hshown Hname]; [reflexivity | reflexivity |].
    split; [exact Hshown|]. split; [reflexivity|].
    split; [exact Hname|]. intros Hsame Hnamed.
    etransitivity; [exact Hname|]. simpl.
    rewrite Hsame. simpl. now rewrite or_else_named.
Qed.

(** In every configuration, picking a file that passes the type check clears
    the edited result at once, and the handler run through a successful read
    ends with the new image stored and the result still empty; [handleSubmit]
    past its guard clears the result before its request goes out.  Hence
    every step of the event loop that picks an image or starts a request
    leaves the result empty. *)
Lemma result_cleared_by_handlers (o : Oracle) (client : GoogleGenAI) (c : Config) :
  (forall files f,
     files ≫= (.!! 0%nat) = Some f ->
     startsWith (type f) "image/" = true ->
     editedImageUrl (ui (world (advance (handleFileChange files) c))) = None
     /\ forall dataUrl,
          fileToBase64 o f = Resolved dataUrl ->
          exists w',
            run o (handleFileChange files) (world c) = (w', Resolved tt)
            /\ originalImage (ui w') = Some {| file := f; url := dataUrl |}
            /\ editedImageUrl (ui w') = None)
  /\ (forall s image,
        originalImage s = Some image ->
        whitespaceOnly (prompt s) = false ->
        editedImageUrl (ui (world (advance (handleSubmit client s) c))) = None
        /\ trace (world (advance (handleSubmit client s) c))
           = trace (world c) ++
             [ sentRequest client (split "," (url image) !! 1%nat) (type (file image))
                 (prompt s) ]
        /\ inFlight (advance (handleSubmit client s) c) = S (inFlight c))
  /\ (forall e c',
        step client e c = Some c' ->
        e = GenerateClick \/ choosesImage e ->
        editedImageUrl (ui (world c')) = None).
Proof.
  assert (Hfile : forall files f,
             files ≫= (.!! 0%nat) = Some f -> startsWith (type f) "image/" = true ->
             editedImageUrl (ui (world (advance (handleFileChange files) c))) = None).
  { intros files f Hf Htype. unfold handleFileChange. now rewrite Hf, Htype. }
  assert (Hsubmit : forall s image,
             originalImage s = Some image -> whitespaceOnly (prompt s) = false ->
             advance (handleSubmit client s) c =
             {| world := observe (sentRequest client (split "," (url image) !! 1%nat)
                                    (type (file image)) (prompt s))
                           (update (setEditedImageUrl None)
                              (update (setError None)
                                 (update (setIsLoading true) (world c))));
                pending := pending c ++ option_list (parkedBy (handleSubmit client s)) |}
             /\ exists k, parkedBy (handleSubmit client s) = Some (OnGenerateContent k)).
  { intros s image Himage Hprompt. rewrite advance_spec. unfold handleSubmit.
    rewrite Himage, truthy_trim, Hprompt. simpl. split; [reflexivity | eauto]. }
  split; [|split].
  - intros files f Hf Htype. split; [now apply (Hfile files f)|].
    intros dataUrl Hread. unfold handleFileChange. rewrite Hf, Htype. simpl.
    rewrite Hread. eexists. repeat split.
  - intros s image Himage Hprompt.
    destruct (Hsubmit s image Himage Hprompt) as [-> [k Hk]].
    split; [reflexivity|]. split; [reflexivity|].
    rewrite inFlight_park, Hk. simpl. fold (inFlight c). lia.
  - intros e c' Hstep [-> | (files & f & -> & Hf & Htype)]; unfold step in Hstep.
    + destruct (generateDisabled _) eqn:Hdisabled; [discriminate|].
      injection Hstep as <-.
      unfold render in Hdisabled. simpl in Hdisabled.
      apply orb_false_elim in Hdisabled as [Hdisabled Hblank].
      apply orb_false_elim in Hdisabled as [_ Hnone].
      destruct (originalImage (ui (world c))) as [image|] eqn:Himage.
      * rewrite truthy_trim, negb_involutive in Hblank.
        now destruct (Hsubmit (ui (world c)) image Himage Hblank) as [-> _].
      * rewrite bool_decide_eq_false_2 in Hnone; [discriminate|].
        intros [x Hx]. discriminate.
    + destruct (fileInputShown _); [|discriminate]. injection Hstep as <-.
      now apply (Hfile files f).
Qed.

(** C6 as stated fails at the transition that stores the new image.  Upload,
    prompt, Generate, remove, pick [portrait.jpg]; the response to the
    request still in flight arrives while that file is being read and fills
    the result; the read then completes, and the step that stores
    [portrait.jpg] leaves the result of [photo.png] in place. *)
Lemma late_response_while_reading :
  (fun c => (name ∘ file <$> originalImage (ui (world c)), editedImageUrl (ui (world c))))
    <$> steps Scenario.gemini
          (Scenario.uploadAndSubmit ++
           [ RemoveClick;
             FileInputChange (Scenario.picked Scenario.portrait);
             GenerateContentSettles 0
               (Resolved (Scenario.responseOf [Scenario.imagePart "Zm9v"])) ])
          firstRender
  = Some (None, Some "data:image/png;base64,Zm9v")
  /\ (fun c => (name ∘ file <$> originalImage (ui (world c)),
                editedImageUrl (ui (world c))))
       <$> steps Scenario.gemini
             (Scenario.uploadAndSubmit ++
              [ RemoveClick;
                FileInputChange (Scenario.picked Scenario.portrait);
                GenerateContentSettles 0
                  (Resolved (Scenario.responseOf [Scenario.imagePart "Zm9v"]));
                FileToBase64Settles 0 (Resolved Scenario.photoUrl) ])
             firstRender
     = Some (Some "portrait.jpg", Some "data:image/png;base64,Zm9v")
  /\ Some "data:image/png;base64,Zm9v" <> (None : option string).
Proof. split_and!; [reflexivity | reflexivity | discriminate]. Qed.

(** C8 as stated fails: a key that is present but empty is as fatal as an
    absent one. *)
Lemma empty_api_key_is_fatal :
  Scenario.withEmptyKey !! "API_KEY" = Some ""
  /\ evaluate Scenario.withEmptyKey
     = {| constructed := [];
          completion := Rejected (mkError "API_KEY environment variable not set.") |}.
Proof. split; reflexivity. Qed.

(** C8, amended: when the API key is absent from the environment or is the
    empty string, evaluating the service module throws before a client is
    built, the program does not start and no configuration is reachable, so
    no request can be made.  When the key is a non-empty string, exactly one
    client is constructed, from that key, and every request of every
    reachable configuration went through it. *)
Theorem api_key_start_up (env : gmap string string) :
  (env !! "API_KEY" = None \/ env !! "API_KEY" = Some "" ->
   evaluate env
   = {| constructed := [];
        completion := Rejected (mkError "API_KEY environment variable not set.") |}
   /\ boot env = Rejected (mkError "API_KEY environment variable not set.")
   /\ forall c, ~ reachable env c)
  /\ (forall key,
        env !! "API_KEY" = Some key -> key <> "" ->
        evaluate env
        = {| constructed := [ {| apiKey := key |} ];
             completion := Resolved {| API_KEY := key; ai := {| apiKey := key |} |} |}
        /\ boot env = Resolved ({| apiKey := key |}, firstRender)
        /\ forall c, reachable env c ->
             Forall (usesClient {| apiKey := key |}) (trace (world c))).
Proof.
  split.
  - intros Hkey.
    assert (Heval : evaluate env
                    = {| constructed := [];
                         completion :=
                           Rejected (mkError "API_KEY environment variable not set.") |}).
    { unfold evaluate. now destruct Hkey as [-> | ->]. }
    split; [exact Heval|]. unfold reachable, boot. rewrite Heval. simpl.
    split; [reflexivity|]. intros c (cl & es & Hboot & _). discriminate.
  - intros key Hkey Hnonempty.
    assert (Heval : evaluate env
                    = {| constructed := [ {| apiKey := key |} ];
                         completion := Resolved {| API_KEY := key;
                                                   ai := {| apiKey := key |} |} |}).
    { unfold evaluate. rewrite Hkey. destruct (truthy key) eqn:Ht; [reflexivity|].
      apply truthy_false in Ht. contradiction. }
    split; [exact Heval|]. split; [unfold boot; now rewrite Heval|].
    intros c Hc. apply reachable_consistent in Hc as (key' & Hkey' & _ & Hcons).
    assert (key' = key) as -> by congruence. apply Hcons.
Qed.

(** ** The theorems at concrete inputs *)

Import Scenario.

Lemma editImageWithGemini_first_match_witness :
  run (answering (Resolved (responseOf [textPart "Here it is"; imagePart "Zm9v";
                                        imagePart "YmFy"])))
    (editImageWithGemini gemini (Some "QUJD") "image/png" "add a hat")
    (showing initialState)
  = (observe (sentRequest gemini (Some "QUJD") "image/png" "add a hat") (showing initialState),
     Resolved "Zm9v").
Proof.
  apply (editImageWithGemini_first_match _ _ _ _ _ _
           (responseOf [textPart "Here it is"; imagePart "Zm9v"; imagePart "YmFy"])
           [textPart "Here it is"] [imagePart "YmFy"] (imagePart "Zm9v")
           {| data := "Zm9v"; mimeType := "image/png" |});
    [reflexivity | reflexivity | repeat constructor | reflexivity].
Defined.

Lemma editImageWithGemini_first_candidate_only_witness :
  scannedParts {| candidates := Some [candidateOf [textPart "first"];
                                      candidateOf [imagePart "Zm9v"]] |}
  = [textPart "first"]
  /\ run (answering (Resolved {| candidates := Some [candidateOf [textPart "first"];
                                                     candidateOf [imagePart "Zm9v"]] |}))
       (editImageWithGemini gemini (Some "QUJD") "image/png" "add a hat")
       (showing initialState)
     = (observe (LoggedError [LogText "Error calling Gemini API:"; LogError NoImagePart])
          (observe (sentRequest gemini (Some "QUJD") "image/png" "add a hat")
             (showing initialState)),
        Rejected TransportFailure).
Proof.
  apply (editImageWithGemini_first_candidate_only _ _ _ _ _ _ _
           (candidateOf [textPart "first"]) [candidateOf [imagePart "Zm9v"]]);
    [reflexivity | reflexivity | repeat constructor].
Defined.

Lemma editImageWithGemini_absent_levels_witness :
  scannedParts {| candidates := Some [ {| content := None |} ] |} = []
  /\ run (answering (Resolved {| candidates := Some [ {| content := None |} ] |}))
       (editImageWithGemini gemini (Some "QUJD") "image/png" "add a hat")
       (showing initialState)
     = (observe (LoggedError [LogText "Error calling Gemini API:"; LogError NoImagePart])
          (observe (sentRequest gemini (Some "QUJD") "image/png" "add a hat")
             (showing initialState)),
        Rejected TransportFailure).
Proof.
  apply editImageWithGemini_absent_levels; [reflexivity|].
  right. right. exists {| content := None |}, []. split; [reflexivity | left; reflexivity].
Defined.

Lemma handleSubmit_blocked_witness :
  whitespaceOnly (prompt (edited photo (String "009" " "))) = true
  /\ fst (run (answering (Rejected (mkError "offline")))
            (handleSubmit gemini (edited photo (String "009" " ")))
            (showing (edited photo (String "009" " "))))
     = update (setError (Some MissingInputs)) (showing (edited photo (String "009" " "))).
Proof.
  split; [reflexivity|].
  destruct (handleSubmit_blocked (answering (Rejected (mkError "offline"))) gemini
              (edited photo (String "009" " "))
              (showing (edited photo (String "009" " ")))
              (idleAt (edited photo (String "009" " ")))
              (or_intror eq_refl)) as (w' & Hrun & _).
  rewrite Hrun. simpl. now injection Hrun as <-.
Defined.

Lemma handleFileChange_invalid_type_witness :
  startsWith (type notes) "image/" = false
  /\ fst (run (answering (Rejected (mkError "offline"))) (handleFileChange (picked notes))
            (showing (edited photo "add a hat")))
     = update (setError (Some InvalidFileType)) (showing (edited photo "add a hat")).
Proof.
  split; [reflexivity|].
  destruct (handleFileChange_invalid_type (answering (Rejected (mkError "offline")))
              (picked notes) notes (showing (edited photo "add a hat"))
              (idleAt (edited photo "add a hat")) eq_refl eq_refl) as (w' & Hrun & _).
  rewrite Hrun. simpl. now injection Hrun as <-.
Defined.

Lemma submission_rejected_witness :
  snd (run (answering (Rejected (mkError "503")))
         (editImageWithGemini gemini (Some "QUJD") "image/png" "add a hat")
         (showing (edited photo "add a hat")))
  = Rejected (mkError "Failed to generate image with Gemini API.")
  /\ render (ui (fst (run (answering (Rejected (mkError "503")))
                        (handleSubmit gemini (edited photo "add a hat"))
                        (showing (edited photo "add a hat")))))
     = {| originalShown := Some photoUrl; fileInputShown := false; promptDisabled := false;
          errorShown := Some "Failed to edit image. Please try again.";
          generateDisabled := false; spinnerShown := false; editedShown := None;
          downloadName := None; resultPlaceholderShown := true |}.
Proof.
  destruct (submission_rejected (answering (Rejected (mkError "503"))) gemini
              (edited photo "add a hat") {| file := photo; url := photoUrl |}
              (showing (edited photo "add a hat")) (mkError "503")
              eq_refl eq_refl eq_refl) as (Hclient & (w' & Hrun & _) & _).
  split; [exact Hclient|]. rewrite Hrun. simpl. now injection Hrun as <-.
Defined.

Lemma edited_result_shown_witness :
  (fun w' => (editedShown (render (ui w')), downloadName (render (ui w'))))
    (fst (run (answering (Resolved (responseOf [imagePart "Zm9v"])))
            (handleSubmit gemini (loaded photo "add a hat"))
            (showing (loaded photo "add a hat"))))
  = (Some "data:image/png;base64,Zm9v", Some "edited-photo.png").
Proof.
  destruct (edited_result_shown (answering (Resolved (responseOf [imagePart "Zm9v"]))) gemini
              (loaded photo "add a hat") {| file := photo; url := photoUrl |}
              (showing (loaded photo "add a hat")) (responseOf [imagePart "Zm9v"]) "Zm9v"
              eq_refl eq_refl eq_refl eq_refl)
    as ((w' & Hrun & Hshown & _ & _ & _ & Hname) & _).
  rewrite Hrun. cbn [fst]. cbv beta.
  rewrite Hshown, Hname; [reflexivity | reflexivity | discriminate].
Defined.

Lemma api_key_start_up_witness :
  boot withoutKey = Rejected (mkError "API_KEY environment variable not set.")
  /\ constructed (evaluate withKey) = [ {| apiKey := "k-123" |} ]
  /\ boot withKey = Resolved ({| apiKey := "k-123" |}, firstRender).
Proof.
  destruct (api_key_start_up withoutKey) as (Habsent & _).
  destruct (Habsent (or_introl eq_refl)) as (_ & Hboot & _).
  destruct (api_key_start_up withKey) as (_ & Hpresent).
  destruct (Hpresent "k-123" eq_refl ltac:(discriminate)) as (Heval & Hboot' & _).
  split; [exact Hboot|]. split; [now rewrite Heval | exact Hboot'].
Defined.

(** * Further properties of the client and of the handlers *)

(** ** The client, for every answer of the network *)

Section ClientOutcomes.

Variable o : Oracle.
Variable client : GoogleGenAI.
Variable base64ImageData : option string.
Variables mimeType promptText : string.

Lemma run_editImageWithGemini_cases (w : World) :
  run o (editImageWithGemini client base64ImageData mimeType promptText) w =
  match generateContent o client (request base64ImageData mimeType promptText) with
  | Resolved response =>
      match firstImage (scannedParts response) with
      | Some d =>
          (observe (sentRequest client base64ImageData mimeType promptText) w, Resolved d)
      | None =>
          (observe (LoggedError [LogText "Error calling Gemini API:"; LogError NoImagePart])
             (observe (sentRequest client base64ImageData mimeType promptText) w),
           Rejected TransportFailure)
      end
  | Rejected e =>
      (observe (LoggedError [LogText "Error calling Gemini API:"; LogError e])
         (observe (sentRequest client base64ImageData mimeType promptText) w),
       Rejected TransportFailure)
  end.
Proof.
  destruct (generateContent o client _) as [response|e] eqn:Hnet.
  - rewrite (run_editImageWithGemini_resolved o client _ _ _ w response Hnet).
    rewrite findImagePart_firstImage.
    destruct (firstImage (scannedParts response)); reflexivity.
  - apply run_editImageWithGemini_rejected, Hnet.
Qed.

Lemma requestsSent_observe (x : Observed) (w : World) :
  requestsSent (observe x w) = requestsSent w ++ (if isRequest x then [x] else []).
Proof.
  unfold requestsSent. simpl. rewrite List.filter_app. simpl. now destruct (isRequest x).
Qed.

(** X1: whatever the network answers, one call of [editImageWithGemini]
    sends exactly one request (it never retries) and does not touch the state
    of the App. *)
Theorem editImageWithGemini_single_request (w : World) :
  requestsSent (fst (run o (editImageWithGemini client base64ImageData mimeType promptText) w))
  = requestsSent w ++ [sentRequest client base64ImageData mimeType promptText]
  /\ ui (fst (run o (editImageWithGemini client base64ImageData mimeType promptText) w))
     = ui w.
Proof.
  rewrite run_editImageWithGemini_cases.
  destruct (generateContent o client _) as [response|e];
    [destruct (firstImage (scannedParts response))|]; cbn [fst];
    rewrite !requestsSent_observe; simpl; rewrite ?app_nil_r; split; reflexivity.
Qed.

(** X2: the call resolves exactly when the network resolved with a response
    whose scanned parts hold an image, and then nothing is logged; every
    failure, whatever its cause, reaches the caller as the same transport
    error, after exactly one [console.error] that names the cause. *)
Theorem editImageWithGemini_outcome (w : World) :
  (forall d,
     snd (run o (editImageWithGemini client base64ImageData mimeType promptText) w)
     = Resolved d
     <-> exists response,
           generateContent o client (request base64ImageData mimeType promptText)
           = Resolved response
           /\ firstImage (scannedParts response) = Some d)
  /\ (forall d,
        snd (run o (editImageWithGemini client base64ImageData mimeType promptText) w)
        = Resolved d ->
        trace (fst (run o (editImageWithGemini client base64ImageData mimeType promptText) w))
        = trace w ++ [sentRequest client base64ImageData mimeType promptText])
  /\ (forall e,
        snd (run o (editImageWithGemini client base64ImageData mimeType promptText) w)
        = Rejected e ->
        e = mkError "Failed to generate image with Gemini API."
        /\ exists cause,
             trace (fst (run o (editImageWithGemini client base64ImageData mimeType
                                  promptText) w))
             = trace w ++
               [ sentRequest client base64ImageData mimeType promptText;
                 LoggedError [LogText "Error calling Gemini API:"; LogError cause] ]).
Proof.
  rewrite run_editImageWithGemini_cases.
  destruct (generateContent o client _) as [response|e0];
    [destruct (firstImage (scannedParts response)) as [d0|] eqn:Hfirst|]; simpl.
  - split; [|split].
    + intros d. split.
      * intros [= <-]. now exists response.
      * intros (r & [= <-] & Hr). congruence.
    + reflexivity.
    + discriminate.
  - split; [|split].
    + intros d. split; [discriminate|]. intros (r & [= <-] & Hr). congruence.
    + discriminate.
    + intros e [= <-]. split; [reflexivity|]. exists NoImagePart.
      now rewrite <- app_assoc.
  - split; [|split].
    + intros d. split; [discriminate|]. intros (r & Hr & _). discriminate.
    + discriminate.
    + intros e [= <-]. split; [reflexivity|]. exists e0. now rewrite <- app_assoc.
Qed.

End ClientOutcomes.

(** ** The payload that is sent *)

Section Payload.

Lemma split_free (sep : ascii) (s : string) : freeOf sep s = true -> split sep s = [s].
Proof.
  induction s as [|c rest IH]; simpl; [reflexivity|].
  intros H. apply andb_prop in H as [Hc Hrest].
  apply negb_true_iff in Hc. now rewrite Hc, (IH Hrest).
Qed.

Lemma split_nonempty (sep : ascii) (s : string) : split sep s <> [].
Proof.
  destruct s as [|c rest]; simpl; [discriminate|].
  destruct (Ascii.eqb c sep); [discriminate|]. now destruct (split sep rest).
Qed.

Lemma split_after_free (sep : ascii) (a rest : string) :
  freeOf sep a = true ->
  split sep (a +:+ rest) =
  match split sep rest with
  | [] => [a]
  | piece :: pieces => (a +:+ piece) :: pieces
  end.
Proof.
  induction a as [|c a IH]; simpl.
  - intros _. change ("" +:+ rest) with rest.
    destruct (split sep rest) eqn:Hrest; [|reflexivity].
    now apply split_nonempty in Hrest.
  - intros H. apply andb_prop in H as [Hc Ha]. apply negb_true_iff in Hc.
    change (String c a +:+ rest) with (String c (a +:+ rest)). simpl.
    rewrite Hc, (IH Ha). now destruct (split sep rest).
Qed.

(** What [url.split(',')[1]] is for a data URL. *)
Lemma payload_of_data_url (mime payload : string) :
  freeOf "," mime = true ->
  freeOf "," payload = true ->
  split "," ("data:" +:+ mime +:+ ";base64," +:+ payload) !! 1%nat = Some payload.
Proof.
  intros Hmime Hpayload.
  change ("data:" +:+ mime +:+ ";base64," +:+ payload)
    with ("data:" +:+ (mime +:+ (";base64" +:+ String "," payload))).
  rewrite (split_after_free "," "data:" _ eq_refl).
  rewrite (split_after_free "," mime _ Hmime).
  rewrite (split_after_free "," ";base64" _ eq_refl).
  simpl. now rewrite (split_free _ _ Hpayload).
Qed.

(** X3: when the loaded image carries a data URL
    "data:<mime>;base64,<payload>" without further commas, a submission
    sends exactly <payload> as the inline data, with the declared type of
    the file; when its URL has no comma at all the request still goes out,
    with undefined data. *)
Theorem handleSubmit_sends_payload (client : GoogleGenAI) (s : AppState)
    (image : ImageState) (c : Config) :
  originalImage s = Some image ->
  whitespaceOnly (prompt s) = false ->
  (forall mime payload,
     url image = "data:" +:+ mime +:+ ";base64," +:+ payload ->
     freeOf "," mime = true -> freeOf "," payload = true ->
     trace (world (advance (handleSubmit client s) c))
     = trace (world c) ++ [sentRequest client (Some payload) (type (file image)) (prompt s)])
  /\ (freeOf "," (url image) = true ->
      trace (world (advance (handleSubmit client s) c))
      = trace (world c) ++ [sentRequest client None (type (file image)) (prompt s)]).
Proof.
  intros Himage Hprompt.
  assert (Htrace : trace (world (advance (handleSubmit client s) c))
                   = trace (world c) ++
                     [sentRequest client (split "," (url image) !! 1%nat)
                        (type (file image)) (prompt s)]).
  { rewrite advance_spec. unfold handleSubmit.
    now rewrite Himage, truthy_trim, Hprompt. }
  split.
  - intros mime payload Hurl Hmime Hpayload.
    now rewrite Htrace, Hurl, payload_of_data_url.
  - intros Hfree. now rewrite Htrace, (split_free _ _ Hfree).
Qed.

End Payload.

(** ** The handlers, for every answer of their awaited calls *)

Section HandlerOutcomes.

Variable o : Oracle.
Variable client : GoogleGenAI.


(** X5: nothing catches a failed read.  For an image file whose read
    rejects, [handleFileChange] rejects with the read error; no message is
    put on display and the loaded image is not replaced, but the edited
    result and the earlier error have already been cleared. *)
Theorem handleFileChange_read_fails (files : option (list File)) (f : File) (w : World)
    (e : Error) :
  files ≫= (.!! 0%nat) = Some f ->
  startsWith (type f) "image/" = true ->
  fileToBase64 o f = Rejected e ->
  exists w',
    run o (handleFileChange files) w = (w', Rejected e)
    /\ trace w' = trace w ++ [CalledFileToBase64 f]
    /\ originalImage (ui w') = originalImage (ui w)
    /\ editedImageUrl (ui w') = None
    /\ error (ui w') = None
    /\ errorShown (render (ui w')) = None
    /\ prompt (ui w') = prompt (ui w)
    /\ isLoading (ui w') = isLoading (ui w).
Proof.
  intros Hf Htype Hread. unfold handleFileChange. rewrite Hf, Htype. simpl.
  rewrite Hread. eexists. repeat split.
Qed.

(** X6: whatever is picked and however the read ends, [handleFileChange]
    sends no request and changes neither the prompt nor the loading flag;
    and unless an image file was read successfully the loaded image stays. *)
Theorem handleFileChange_frame (files : option (list File)) (w : World) :
  requestsSent (fst (run o (handleFileChange files) w)) = requestsSent w
  /\ prompt (ui (fst (run o (handleFileChange files) w))) = prompt (ui w)
  /\ isLoading (ui (fst (run o (handleFileChange files) w))) = isLoading (ui w)
  /\ (originalImage (ui (fst (run o (handleFileChange files) w))) = originalImage (ui w)
      \/ exists f dataUrl,
           files ≫= (.!! 0%nat) = Some f
           /\ startsWith (type f) "image/" = true
           /\ fileToBase64 o f = Resolved dataUrl
           /\ originalImage (ui (fst (run o (handleFileChange files) w)))
              = Some {| file := f; url := dataUrl |}).
Proof.
  unfold handleFileChange. destruct (files ≫= (.!! 0%nat)) as [f|] eqn:Hf.
  - destruct (startsWith (type f) "image/") eqn:Htype; simpl.
    + destruct (fileToBase64 o f) as [dataUrl|e] eqn:Hread; simpl;
        unfold requestsSent; simpl; rewrite List.filter_app; simpl; rewrite app_nil_r.
      * repeat split. right. now exists f, dataUrl.
      * repeat split. now left.
    + repeat split. now left.
  - simpl. repeat split. now left.
Qed.

End HandlerOutcomes.

(** ** What the validations guarantee in every reachable configuration *)

Section Validation.

Variable client : GoogleGenAI.

Lemma handleFileChange_vettedTask (files : option (list File)) (t : Suspended) :
  parkedBy (handleFileChange files) = Some t -> vettedTask t.
Proof.
  intros Ht. apply handleFileChange_parked in Ht as (f & k & _ & Htype & -> & Hresume).
  simpl. now exists f.
Qed.

Lemma handleSubmit_vettedTask (s : AppState) (t : Suspended) :
  (forall image, originalImage s = Some image ->
                 startsWith (type (file image)) "image/" = true) ->
  parkedBy (handleSubmit client s) = Some t -> vettedTask t.
Proof.
  intros Hs Ht.
  apply (handleSubmit_parked client) in Ht as (image & k & Himage & _ & -> & Hresume).
  simpl. exists (type (file image)). split; [now apply Hs | exact Hresume].
Qed.

Lemma vetted_appended (xs ys : list Observed) :
  Forall (vettedRequest client) xs -> Forall (vettedRequest client) ys ->
  Forall (vettedRequest client) (xs ++ ys).
Proof. intros Hxs Hys. apply Forall_app. now split. Qed.

Lemma submitSettles_vetted (mime : string) (settled : Outcome GenerateContentResponse)
    (c : Config) (i : nat) :
  Vetted client c ->
  startsWith mime "image/" = true ->
  Vetted client {| world := submitSettles mime settled (world c);
                   pending := delete i (pending c) |}.
Proof.
  intros [Himage Hresult Herror Hreqs Hparked] Hmime.
  assert (Hfail : forall cause,
             Vetted client {| world := clientFailed cause (world c);
                              pending := delete i (pending c) |}).
  { intros cause. split; simpl.
    - exact Himage.
    - exact Hresult.
    - right. now right.
    - rewrite <- app_assoc. apply vetted_appended; [exact Hreqs | repeat constructor].
    - now apply Forall_delete. }
  unfold submitSettles. destruct settled as [response|e]; [|apply Hfail].
  destruct (firstImage (scannedParts response)) as [d|]; [|apply Hfail].
  split; simpl.
  - exact Himage.
  - intros u [= <-]. now exists mime, d.
  - exact Herror.
  - exact Hreqs.
  - now apply Forall_delete.
Qed.

Lemma readSettles_vetted (f : File) (settled : Outcome string) (c : Config) (i : nat) :
  Vetted client c ->
  startsWith (type f) "image/" = true ->
  Vetted client {| world := readSettles f settled (world c);
                   pending := delete i (pending c) |}.
Proof.
  intros [Himage Hresult Herror Hreqs Hparked] Htype.
  destruct settled as [dataUrl|e]; split; simpl;
    try exact Hresult; try exact Herror; try exact Himage; try exact Hreqs;
    try (now apply Forall_delete).
  - now intros image [= <-].
  - apply vetted_appended; [exact Hreqs | repeat constructor].
Qed.

Lemma step_vetted (e : Event) (c c' : Config) :
  Vetted client c -> step client e c = Some c' -> Vetted client c'.
Proof.
  intros Hc Hstep. pose proof Hc as [Himage Hresult Herror Hreqs Hparked].
  destruct e as [files| |value| |i settled|i settled];
    unfold step in Hstep; cbn [render fileInputShown promptDisabled generateDisabled] in Hstep.
  - (* a file is picked *)
    destruct (bool_decide _); [discriminate|]. cbn [negb] in Hstep.
    injection Hstep as <-. rewrite advance_spec.
    assert (Hpending : Forall vettedTask
                         (pending c ++ option_list (parkedBy (handleFileChange files)))).
    { apply Forall_app. split; [exact Hparked|].
      destruct (parkedBy (handleFileChange files)) as [t|] eqn:Ht; simpl; [|constructor].
      constructor; [|constructor]. now apply (handleFileChange_vettedTask files). }
    split; [ | | | |exact Hpending]; clear Hpending; unfold handleFileChange;
      (destruct (files ≫= (.!! 0%nat)) as [f|]; [destruct (startsWith (type f) "image/")|]);
      simpl; try assumption.
    + discriminate.
    + now left.
    + right. now left.
    + apply vetted_appended; [exact Hreqs | repeat constructor].
  - (* the image is removed *)
    change (step client RemoveClick c = Some c') in Hstep.
    apply step_remove in Hstep as ->. split; simpl.
    + discriminate.
    + discriminate.
    + now left.
    + exact Hreqs.
    + exact Hparked.
  - (* the prompt is edited *)
    destruct (isLoading (ui (world c)) || _); [discriminate|].
    injection Hstep as <-. now split.
  - (* Generate is clicked *)
    destruct (isLoading (ui (world c))) eqn:Hidle; [discriminate|].
    destruct (originalImage (ui (world c))) as [image|] eqn:Hloaded; [|discriminate].
    rewrite bool_decide_eq_true_2 in Hstep by eauto.
    destruct (truthy (trim (prompt (ui (world c))))) eqn:Hprompt; [|discriminate].
    cbn [negb orb] in Hstep. injection Hstep as <-. rewrite advance_spec.
    assert (Hpending : Forall vettedTask
                         (pending c ++
                          option_list (parkedBy (handleSubmit client (ui (world c)))))).
    { apply Forall_app. split; [exact Hparked|].
      destruct (parkedBy (handleSubmit client (ui (world c)))) as [t|] eqn:Ht; simpl;
        [|constructor].
      constructor; [|constructor].
      apply (handleSubmit_vettedTask (ui (world c))); [|exact Ht].
      intros image' Himage'. apply Himage. congruence. }
    split; [ | | | |exact Hpending]; clear Hpending; unfold handleSubmit;
      rewrite Hloaded, Hprompt; simpl.
    + intros image' Himage'. apply Himage. congruence.
    + discriminate.
    + now left.
    + apply vetted_appended; [exact Hreqs|]. constructor; [|constructor].
      simpl. eexists _, _, _. split; [reflexivity|]. split; [reflexivity|].
      split; [now apply Himage|].
      rewrite truthy_trim in Hprompt. now apply negb_true_iff in Hprompt.
  - (* a response arrives *)
    destruct (pending c !! i) as [[k|k]|] eqn:Hi; [|discriminate..].
    injection Hstep as <-.
    pose proof (proj1 (Forall_lookup _ _) Hparked i _ Hi) as (mime & Hmime & Hresume).
    rewrite Hresume. now apply (submitSettles_vetted mime settled c i).
  - (* a file has been read *)
    destruct (pending c !! i) as [[k|k]|] eqn:Hi; [discriminate| |discriminate].
    injection Hstep as <-.
    pose proof (proj1 (Forall_lookup _ _) Hparked i _ Hi) as (f & Htype & Hresume).
    rewrite Hresume. now apply (readSettles_vetted f settled c i).
Qed.

Lemma steps_vetted (es : list Event) (c c' : Config) :
  Vetted client c -> steps client es c = Some c' -> Vetted client c'.
Proof.
  revert c. induction es as [|e es IH]; intros c Hc Hsteps; simpl in Hsteps.
  - now injection Hsteps as <-.
  - destruct (step client e c) as [c1|] eqn:Hstep; [|discriminate].
    eapply IH; [|exact Hsteps]. eapply step_vetted; eauto.
Qed.

Lemma firstRender_vetted : Vetted client firstRender.
Proof. split; simpl; try discriminate; try constructor. reflexivity. Qed.

End Validation.

Lemma reachable_vetted (env : gmap string string) (c : Config) :
  reachable env c ->
  exists key, env !! "API_KEY" = Some key /\ Vetted {| apiKey := key |} c.
Proof.
  intros (cl & es & Hboot & Hsteps). unfold boot, evaluate in Hboot.
  destruct (env !! "API_KEY") as [key|]; [|discriminate].
  destruct (truthy key); [|discriminate]. simpl in Hboot.
  injection Hboot as <-. exists key. split; [reflexivity|].
  eapply steps_vetted; [apply firstRender_vetted | exact Hsteps].
Qed.

(** X7: through the controls, at most one edit request is ever in flight.
    In every reachable configuration the loading flag is set exactly while
    one request is in flight, and as long as it is, no edited result is
    stored and the Generate button is disabled. *)
Theorem at_most_one_request_in_flight (env : gmap string string) (c : Config) :
  reachable env c ->
  (inFlight c <= 1)%nat
  /\ (isLoading (ui (world c)) = true <-> inFlight c = 1%nat)
  /\ (isLoading (ui (world c)) = true ->
      editedImageUrl (ui (world c)) = None
      /\ generateDisabled (render (ui (world c))) = true
      /\ spinnerShown (render (ui (world c))) = true).
Proof.
  intros Hc. apply reachable_consistent in Hc as (key & _ & _ & [_ _ Hload]).
  destruct Hload as [[Hnone Hidle]|(Hone & Hbusy & Hedit)].
  - rewrite Hnone, Hidle. split; [lia|]. split; [split; discriminate | discriminate].
  - rewrite Hone, Hbusy. split; [lia|]. split; [tauto|]. intros _.
    split; [exact Hedit|]. unfold render. simpl. now rewrite Hbusy.
Qed.

(** X8: the validation message of [handleSubmit] can never be on display.
    In every reachable configuration the error cell is empty or holds the
    invalid-file message or the generic edit failure: the Generate button is
    enabled only where the guard of [handleSubmit] passes. *)
Theorem validation_message_never_shown (env : gmap string string) (c : Config) :
  reachable env c ->
  (error (ui (world c)) = None
   \/ error (ui (world c)) = Some "Please upload a valid image file (PNG, JPG, etc.)."
   \/ error (ui (world c)) = Some "Failed to edit image. Please try again.")
  /\ error (ui (world c)) <> Some "Please upload an image and enter a prompt."
  /\ errorShown (render (ui (world c))) <> Some "Please upload an image and enter a prompt.".
Proof.
  intros Hc. apply reachable_vetted in Hc as (key & _ & [_ _ Herror _ _]).
  split; [exact Herror|].
  unfold render. simpl.
  destruct Herror as [-> | [-> | ->]]; split; discriminate.
Qed.

(** X9: the two validations hold for everything that is sent.  Every request
    observed in a reachable configuration was built by [editImageWithGemini]
    for a MIME type that starts with "image/" and a prompt that is not
    blank. *)
Theorem every_request_is_validated (env : gmap string string) (c : Config) :
  reachable env c ->
  forall cl q,
    CalledGenerateContent cl q ∈ trace (world c) ->
    exists base64Data mimeType promptText,
      q = request base64Data mimeType promptText
      /\ startsWith mimeType "image/" = true
      /\ whitespaceOnly promptText = false.
Proof.
  intros Hc cl q Hin. apply reachable_vetted in Hc as (key & _ & [_ _ _ Hreqs _]).
  pose proof (proj1 (Forall_forall _ _) Hreqs _ Hin) as (b & m & p & _ & Hq & Hm & Hp).
  now exists b, m, p.
Qed.

(** X10: in every reachable configuration a stored result is a data URL
    "data:<mime>;base64,<payload>" of an image type; it is therefore shown,
    together with a download link. *)
Theorem result_is_image_data_url (env : gmap string string) (c : Config) (u : string) :
  reachable env c ->
  editedImageUrl (ui (world c)) = Some u ->
  (exists mimeType payload,
     startsWith mimeType "image/" = true
     /\ u = "data:" +:+ mimeType +:+ ";base64," +:+ payload)
  /\ editedShown (render (ui (world c))) = Some u
  /\ is_Some (downloadName (render (ui (world c))))
  /\ resultPlaceholderShown (render (ui (world c))) = false.
Proof.
  intros Hc Hu. apply reachable_vetted in Hc as (key & _ & [_ Hresult _ _ _]).
  destruct (Hresult u Hu) as (mime & payload & Hmime & ->).
  split; [now exists mime, payload|].
  unfold render. simpl. rewrite Hu. simpl. eauto.
Qed.

(** X11: in every reachable configuration the loaded image passed the type
    check: the declared type of its file starts with "image/". *)
Theorem loaded_image_has_image_type (env : gmap string string) (c : Config)
    (image : ImageState) :
  reachable env c ->
  originalImage (ui (world c)) = Some image ->
  startsWith (type (file image)) "image/" = true.
Proof.
  intros Hc Himage. apply reachable_vetted in Hc as (key & _ & [Hvalid _ _ _ _]).
  now apply Hvalid.
Qed.

(** ** Counting requests, and what never changes the prompt *)

Section Counting.

Variable client : GoogleGenAI.

Lemma requestsSent_submitSettles (mime : string) (settled : Outcome GenerateContentResponse)
    (w : World) :
  requestsSent (submitSettles mime settled w) = requestsSent w.
Proof.
  unfold submitSettles, clientFailed, requestsSent.
  destruct settled as [response|e]; [destruct (firstImage _)|]; simpl;
    rewrite ?List.filter_app; simpl; rewrite ?app_nil_r; reflexivity.
Qed.

Lemma requestsSent_readSettles (f : File) (settled : Outcome string) (w : World) :
  requestsSent (readSettles f settled w) = requestsSent w.
Proof.
  unfold requestsSent. destruct settled as [dataUrl|e]; simpl; [reflexivity|].
  rewrite List.filter_app. simpl. now rewrite app_nil_r.
Qed.

Lemma prompt_submitSettles (mime : string) (settled : Outcome GenerateContentResponse)
    (w : World) :
  prompt (ui (submitSettles mime settled w)) = prompt (ui w).
Proof.
  unfold submitSettles. destruct settled as [response|e]; [destruct (firstImage _)|];
    reflexivity.
Qed.

Lemma step_requests (e : Event) (c c' : Config) :
  Vetted client c ->
  step client e c = Some c' ->
  length (requestsSent (world c'))
  = (length (requestsSent (world c)) + if isGenerateClick e then 1 else 0)%nat.
Proof.
  intros [Himage _ _ _ Hparked] Hstep.
  destruct e as [files| |value| |i settled|i settled];
    unfold step in Hstep; cbn [render fileInputShown promptDisabled generateDisabled] in Hstep;
    cbn [isGenerateClick].
  - destruct (bool_decide _); [discriminate|]. cbn [negb] in Hstep.
    injection Hstep as <-. rewrite advance_spec. unfold handleFileChange.
    destruct (files ≫= (.!! 0%nat)) as [f|]; [destruct (startsWith (type f) "image/")|];
      unfold requestsSent; simpl; rewrite ?List.filter_app; simpl; rewrite ?app_nil_r; lia.
  - change (step client RemoveClick c = Some c') in Hstep.
    apply step_remove in Hstep as ->. unfold requestsSent. simpl. lia.
  - destruct (isLoading (ui (world c)) || _); [discriminate|].
    injection Hstep as <-. unfold requestsSent. simpl. lia.
  - destruct (isLoading (ui (world c))); [discriminate|].
    destruct (originalImage (ui (world c))) as [image|] eqn:Hloaded; [|discriminate].
    rewrite bool_decide_eq_true_2 in Hstep by eauto.
    destruct (truthy (trim (prompt (ui (world c))))) eqn:Hprompt; [|discriminate].
    cbn [negb orb] in Hstep. injection Hstep as <-. rewrite advance_spec.
    unfold handleSubmit. rewrite Hloaded, Hprompt. unfold requestsSent. simpl.
    rewrite List.filter_app, length_app. reflexivity.
  - destruct (pending c !! i) as [[k|k]|] eqn:Hi; [|discriminate..].
    injection Hstep as <-.
    pose proof (proj1 (Forall_lookup _ _) Hparked i _ Hi) as (mime & _ & Hresume).
    rewrite Hresume. simpl. rewrite requestsSent_submitSettles. lia.
  - destruct (pending c !! i) as [[k|k]|] eqn:Hi; [discriminate| |discriminate].
    injection Hstep as <-.
    pose proof (proj1 (Forall_lookup _ _) Hparked i _ Hi) as (f & _ & Hresume).
    rewrite Hresume. simpl. rewrite requestsSent_readSettles. lia.
Qed.

Lemma steps_requests (es : list Event) (c c' : Config) :
  Vetted client c ->
  steps client es c = Some c' ->
  length (requestsSent (world c'))
  = (length (requestsSent (world c)) + generateClicks es)%nat.
Proof.
  revert c. induction es as [|e es IH]; intros c Hc Hsteps; simpl in Hsteps.
  - injection Hsteps as <-. unfold generateClicks. simpl. lia.
  - destruct (step client e c) as [c1|] eqn:Hstep; [|discriminate].
    rewrite (IH c1 (step_vetted client e c c1 Hc Hstep) Hsteps).
    rewrite (step_requests e c c1 Hc Hstep).
    unfold generateClicks. simpl. destruct (isGenerateClick e); simpl; lia.
Qed.

(** X12: along every run from the first render, the requests sent are as
    many as the clicks on Generate: a click sends exactly one, nothing is
    retried, and no upload, removal, typing or settled call sends any. *)
Theorem one_request_per_generate_click (es : list Event) (c : Config) :
  steps client es firstRender = Some c ->
  length (requestsSent (world c)) = generateClicks es.
Proof.
  intros Hsteps.
  now rewrite (steps_requests es firstRender c (firstRender_vetted client) Hsteps).
Qed.

(** X13: only typing changes the prompt.  Along every run from the first
    render, every step other than an input to the text area leaves the
    prompt as it was: it survives uploads, removals, results and failures. *)
Theorem prompt_changes_only_by_typing (es : list Event) (c c' : Config) (e : Event) :
  steps client es firstRender = Some c ->
  step client e c = Some c' ->
  (forall value, e <> PromptInput value) ->
  prompt (ui (world c')) = prompt (ui (world c)).
Proof.
  intros Hsteps Hstep Hother.
  pose proof (steps_vetted client es firstRender c (firstRender_vetted client) Hsteps)
    as [_ _ _ _ Hparked].
  destruct e as [files| |value| |i settled|i settled];
    unfold step in Hstep; cbn [render fileInputShown promptDisabled generateDisabled] in Hstep.
  - destruct (bool_decide _); [discriminate|]. cbn [negb] in Hstep.
    injection Hstep as <-. rewrite advance_spec. unfold handleFileChange.
    now destruct (files ≫= (.!! 0%nat)) as [f|]; [destruct (startsWith (type f) "image/")|].
  - change (step client RemoveClick c = Some c') in Hstep.
    now apply step_remove in Hstep as ->.
  - now destruct (Hother value).
  - destruct (isLoading (ui (world c))); [discriminate|].
    destruct (originalImage (ui (world c))) as [image|] eqn:Hloaded; [|discriminate].
    rewrite bool_decide_eq_true_2 in Hstep by eauto.
    destruct (truthy (trim (prompt (ui (world c))))) eqn:Hprompt; [|discriminate].
    cbn [negb orb] in Hstep. injection Hstep as <-. rewrite advance_spec.
    unfold handleSubmit. now rewrite Hloaded, Hprompt.
  - destruct (pending c !! i) as [[k|k]|] eqn:Hi; [|discriminate..].
    injection Hstep as <-.
    pose proof (proj1 (Forall_lookup _ _) Hparked i _ Hi) as (mime & _ & Hresume).
    rewrite Hresume. simpl. apply prompt_submitSettles.
  - destruct (pending c !! i) as [[k|k]|] eqn:Hi; [discriminate| |discriminate].
    injection Hstep as <-.
    pose proof (proj1 (Forall_lookup _ _) Hparked i _ Hi) as (f & _ & Hresume).
    rewrite Hresume. now destruct settled.
Qed.

(** X14: removing the image does not cancel its request.  Whenever the
    remove button can be clicked, the click empties the image, the result
    and the error and brings back the upload placeholder, but the parked
    tasks, the loading flag and the prompt stay: a request in flight is
    still in flight, and Generate is disabled. *)
Theorem removal_does_not_cancel (c c' : Config) :
  step client RemoveClick c = Some c' ->
  pending c' = pending c
  /\ inFlight c' = inFlight c
  /\ isLoading (ui (world c')) = isLoading (ui (world c))
  /\ prompt (ui (world c')) = prompt (ui (world c))
  /\ requestsSent (world c') = requestsSent (world c)
  /\ render (ui (world c'))
     = {| originalShown := None; fileInputShown := true; promptDisabled := true;
          errorShown := None; generateDisabled := true;
          spinnerShown := isLoading (ui (world c)); editedShown := None;
          downloadName := None;
          resultPlaceholderShown := negb (isLoading (ui (world c))) |}.
Proof.
  intros Hstep. apply step_remove in Hstep as ->.
  split; [reflexivity|]. split; [reflexivity|].
  split; [reflexivity|]. split; [reflexivity|]. split; [reflexivity|].
  unfold render. simpl. now rewrite orb_true_r.
Qed.

End Counting.

(** ** The further theorems at concrete inputs *)

Lemma whileLoading_reachable : reachable withKey whileLoading.
Proof. exists gemini, uploadAndSubmit. split; reflexivity. Qed.

Lemma afterEdit_reachable : reachable withKey afterEdit.
Proof. exists gemini, editRun. split; reflexivity. Qed.

Lemma editImageWithGemini_outcome_witness :
  snd (run (answering (Resolved (responseOf [textPart "Here it is"; imagePart "Zm9v"])))
         (editImageWithGemini gemini (Some "QUJD") "image/png" "add a hat")
         (showing initialState))
  = Resolved "Zm9v".
Proof.
  apply (proj1 (editImageWithGemini_outcome
                  (answering (Resolved (responseOf [textPart "Here it is"; imagePart "Zm9v"])))
                  gemini (Some "QUJD") "image/png" "add a hat" (showing initialState))).
  exists (responseOf [textPart "Here it is"; imagePart "Zm9v"]). split; reflexivity.
Defined.

Lemma handleSubmit_sends_payload_witness :
  trace (world (advance (handleSubmit gemini (loaded photo "add a hat"))
                  (idleAt (loaded photo "add a hat"))))
  = [sentRequest gemini (Some "QUJD") "image/png" "add a hat"].
Proof.
  exact (proj1 (handleSubmit_sends_payload gemini (loaded photo "add a hat")
                  {| file := photo; url := photoUrl |} (idleAt (loaded photo "add a hat"))
                  eq_refl eq_refl)
           "image/png" "QUJD" eq_refl eq_refl eq_refl).
Defined.

Lemma handleFileChange_read_fails_witness :
  exists w',
    run unreadable (handleFileChange (picked photo)) (showing orphaned)
    = (w', Rejected (mkError "NotReadableError"))
    /\ trace w' = trace (showing orphaned) ++ [CalledFileToBase64 photo]
    /\ originalImage (ui w') = originalImage (ui (showing orphaned))
    /\ editedImageUrl (ui w') = None
    /\ error (ui w') = None
    /\ errorShown (render (ui w')) = None
    /\ prompt (ui w') = prompt (ui (showing orphaned))
    /\ isLoading (ui w') = isLoading (ui (showing orphaned)).
Proof.
  exact (handleFileChange_read_fails unreadable (picked photo) photo (showing orphaned)
           (mkError "NotReadableError") eq_refl eq_refl eq_refl).
Defined.

Lemma at_most_one_request_in_flight_witness :
  (inFlight whileLoading <= 1)%nat
  /\ (isLoading (ui (world whileLoading)) = true <-> inFlight whileLoading = 1%nat)
  /\ (isLoading (ui (world whileLoading)) = true ->
      editedImageUrl (ui (world whileLoading)) = None
      /\ generateDisabled (render (ui (world whileLoading))) = true
      /\ spinnerShown (render (ui (world whileLoading))) = true).
Proof. exact (at_most_one_request_in_flight withKey whileLoading whileLoading_reachable). Defined.

Lemma validation_message_never_shown_witness :
  error (ui (world afterEdit)) <> Some "Please upload an image and enter a prompt.".
Proof.
  exact (proj1 (proj2 (validation_message_never_shown withKey afterEdit afterEdit_reachable))).
Defined.

Lemma every_request_is_validated_witness :
  exists base64Data mimeType promptText,
    request (Some "QUJD") "image/png" "add a hat" = request base64Data mimeType promptText
    /\ startsWith mimeType "image/" = true
    /\ whitespaceOnly promptText = false.
Proof.
  apply (every_request_is_validated withKey afterEdit afterEdit_reachable gemini).
  right. left.
Defined.

Lemma result_is_image_data_url_witness :
  (exists mimeType payload,
     startsWith mimeType "image/" = true
     /\ "data:image/png;base64,Zm9v" = "data:" +:+ mimeType +:+ ";base64," +:+ payload)
  /\ editedShown (render (ui (world afterEdit))) = Some "data:image/png;base64,Zm9v"
  /\ is_Some (downloadName (render (ui (world afterEdit))))
  /\ resultPlaceholderShown (render (ui (world afterEdit))) = false.
Proof.
  exact (result_is_image_data_url withKey afterEdit "data:image/png;base64,Zm9v"
           afterEdit_reachable eq_refl).
Defined.

Lemma loaded_image_has_image_type_witness :
  startsWith (type photo) "image/" = true.
Proof.
  exact (loaded_image_has_image_type withKey afterEdit {| file := photo; url := photoUrl |}
           afterEdit_reachable eq_refl).
Defined.

Lemma one_request_per_generate_click_witness :
  length (requestsSent (world afterEdit)) = generateClicks editRun.
Proof. exact (one_request_per_generate_click gemini editRun afterEdit eq_refl). Defined.

Lemma prompt_changes_only_by_typing_witness :
  prompt (ui (world removedWhileLoading)) = prompt (ui (world whileLoading)).
Proof.
  apply (prompt_changes_only_by_typing gemini uploadAndSubmit whileLoading
           removedWhileLoading RemoveClick); [reflexivity | reflexivity | discriminate].
Defined.

Lemma removal_does_not_cancel_witness :
  inFlight removedWhileLoading = inFlight whileLoading
  /\ isLoading (ui (world removedWhileLoading)) = true.
Proof.
  destruct (removal_does_not_cancel gemini whileLoading removedWhileLoading eq_refl)
    as (_ & Hflight & Hloading & _).
  split; [exact Hflight | exact Hloading].
Defined.

(** ** When the edited result is empty *)

Section Clearing.

Variable client : GoogleGenAI.

(** The step that stores a newly read image touches nothing else. *)
Lemma step_stores_image (i : nat) (dataUrl : string) (c c' : Config) :
  Vetted client c ->
  step client (FileToBase64Settles i (Resolved dataUrl)) c = Some c' ->
  editedImageUrl (ui (world c')) = editedImageUrl (ui (world c))
  /\ exists f, originalImage (ui (world c')) = Some {| file := f; url := dataUrl |}
               /\ startsWith (type f) "image/" = true.
Proof.
  intros [_ _ _ _ Hparked] Hstep. unfold step in Hstep.
  destruct (pending c !! i) as [[k|k]|] eqn:Hi; [discriminate| |discriminate].
  injection Hstep as <-.
  pose proof (proj1 (Forall_lookup _ _) Hparked i _ Hi) as (f & Htype & Hresume).
  rewrite Hresume. simpl. split; [reflexivity|]. now exists f.
Qed.

(** Only a response can fill the result. *)
Lemma step_keeps_result_empty (e : Event) (c c' : Config) :
  Vetted client c ->
  step client e c = Some c' ->
  isResponse e = false ->
  editedImageUrl (ui (world c)) = None ->
  editedImageUrl (ui (world c')) = None.
Proof.
  intros [_ _ _ _ Hparked] Hstep Hquiet Hempty.
  destruct e as [files| |value| |i settled|i settled]; [| | | |discriminate|].
  - unfold step in Hstep. destruct (fileInputShown _); [|discriminate].
    injection Hstep as <-. rewrite advance_spec. unfold handleFileChange.
    now destruct (files ≫= (.!! 0%nat)) as [f|]; [destruct (startsWith (type f) "image/")|].
  - now apply step_remove in Hstep as ->.
  - unfold step in Hstep. destruct (promptDisabled _); [discriminate|].
    now injection Hstep as <-.
  - unfold step in Hstep. destruct (generateDisabled _) eqn:Hdisabled; [discriminate|].
    injection Hstep as <-. rewrite advance_spec.
    unfold render in Hdisabled. simpl in Hdisabled.
    apply orb_false_elim in Hdisabled as [Hdisabled Hblank].
    unfold handleSubmit. destruct (originalImage (ui (world c))); [|exact Hempty].
    apply negb_false_iff in Hblank. now rewrite Hblank.
  - unfold step in Hstep.
    destruct (pending c !! i) as [[k|k]|] eqn:Hi; [discriminate| |discriminate].
    injection Hstep as <-.
    pose proof (proj1 (Forall_lookup _ _) Hparked i _ Hi) as (f & _ & Hresume).
    rewrite Hresume. now destruct settled.
Qed.

Lemma steps_keep_result_empty (es : list Event) (c c' : Config) :
  Vetted client c ->
  steps client es c = Some c' ->
  forallb (fun e => negb (isResponse e)) es = true ->
  editedImageUrl (ui (world c)) = None ->
  editedImageUrl (ui (world c')) = None.
Proof.
  revert c. induction es as [|e es IH]; intros c Hc Hsteps Hquiet Hempty; simpl in *.
  - now injection Hsteps as <-.
  - destruct (step client e c) as [c1|] eqn:Hstep; [|discriminate].
    apply andb_prop in Hquiet as [He Hes]. apply negb_true_iff in He.
    apply (IH c1); [eapply step_vetted; eauto | exact Hsteps | exact Hes |].
    now apply (step_keeps_result_empty e c c1).
Qed.

End Clearing.

(** C6, amended: in every configuration (so in every reachable one) the step
    at which a file that passes the type check is chosen and the step at
    which a new edit request starts set the edited result to null, and the
    handler run through a successful read ends with the new image stored and
    the result empty.  Along every run from the first render the result then
    stays empty through every later step until a response to an edit request
    arrives.  The step that stores the newly read image does not touch the
    result: it is empty at that step unless such a response arrived while
    the file was being read. *)
Theorem edit_result_cleared (o : Oracle) (client : GoogleGenAI) (c : Config) :
  (forall files f,
     files ≫= (.!! 0%nat) = Some f ->
     startsWith (type f) "image/" = true ->
     editedImageUrl (ui (world (advance (handleFileChange files) c))) = None
     /\ forall dataUrl,
          fileToBase64 o f = Resolved dataUrl ->
          exists w',
            run o (handleFileChange files) (world c) = (w', Resolved tt)
            /\ originalImage (ui w') = Some {| file := f; url := dataUrl |}
            /\ editedImageUrl (ui w') = None)
  /\ (forall s image,
        originalImage s = Some image ->
        whitespaceOnly (prompt s) = false ->
        editedImageUrl (ui (world (advance (handleSubmit client s) c))) = None
        /\ trace (world (advance (handleSubmit client s) c))
           = trace (world c) ++
             [ sentRequest client (split "," (url image) !! 1%nat) (type (file image))
                 (prompt s) ]
        /\ inFlight (advance (handleSubmit client s) c) = S (inFlight c))
  /\ (forall e c',
        step client e c = Some c' ->
        e = GenerateClick \/ choosesImage e ->
        editedImageUrl (ui (world c')) = None)
  /\ (forall es0,
        steps client es0 firstRender = Some c ->
        (forall e c1 es c2,
           step client e c = Some c1 ->
           e = GenerateClick \/ choosesImage e ->
           steps client es c1 = Some c2 ->
           forallb (fun e' => negb (isResponse e')) es = true ->
           editedImageUrl (ui (world c2)) = None)
        /\ (forall i dataUrl c',
              step client (FileToBase64Settles i (Resolved dataUrl)) c = Some c' ->
              editedImageUrl (ui (world c')) = editedImageUrl (ui (world c))
              /\ exists f,
                   originalImage (ui (world c')) = Some {| file := f; url := dataUrl |}
                   /\ startsWith (type f) "image/" = true)).
Proof.
  destruct (result_cleared_by_handlers o client c) as (Hfile & Hsubmit & Hstep).
  split; [exact Hfile|]. split; [exact Hsubmit|]. split; [exact Hstep|].
  intros es0 Hreached.
  pose proof (steps_vetted client es0 firstRender c (firstRender_vetted client) Hreached)
    as Hc.
  split.
  - intros e c1 es c2 Hfirst Hkind Hrest Hquiet.
    apply (steps_keep_result_empty client es c1 c2).
    + eapply step_vetted; eauto.
    + exact Hrest.
    + exact Hquiet.
    + now apply (Hstep e c1).
  - intros i dataUrl c' Hstore. now apply (step_stores_image client i dataUrl c c').
Qed.

Lemma edit_result_cleared_witness :
  editedImageUrl (ui (world (advance (handleFileChange (picked photo)) (idleAt orphaned))))
  = None
  /\ editedImageUrl
       (ui (world (advance (handleSubmit gemini (edited photo "add a hat"))
                     (idleAt (edited photo "add a hat")))))
     = None
  /\ editedImageUrl (ui (world afterEdit)) = Some "data:image/png;base64,Zm9v"
  /\ editedImageUrl (ui (world resubmitted)) = None
  /\ name ∘ file <$> originalImage (ui (world replaced)) = Some "portrait.jpg"
  /\ editedImageUrl (ui (world replaced)) = None.
Proof.
  split; [|split; [|split; [reflexivity|split; [|split; [reflexivity|]]]]].
  - destruct (edit_result_cleared (answering (Rejected (mkError "offline"))) gemini
                (idleAt orphaned)) as (Hfile & _).
    exact (proj1 (Hfile (picked photo) photo eq_refl eq_refl)).
  - destruct (edit_result_cleared (answering (Rejected (mkError "offline"))) gemini
                (idleAt (edited photo "add a hat"))) as (_ & Hsubmit & _).
    exact (proj1 (Hsubmit (edited photo "add a hat") {| file := photo; url := photoUrl |}
                    eq_refl eq_refl)).
  - destruct (edit_result_cleared (answering (Rejected (mkError "offline"))) gemini
                afterEdit) as (_ & _ & Hstep & _).
    exact (Hstep GenerateClick resubmitted eq_refl (or_introl eq_refl)).
  - destruct (edit_result_cleared (answering (Rejected (mkError "offline"))) gemini
                afterEdit) as (_ & _ & _ & Hrun).
    destruct (Hrun editRun eq_refl) as (Hquiet & _).
    exact (Hquiet GenerateClick resubmitted replaceWhileLoading replaced
             eq_refl (or_introl eq_refl) eq_refl eq_refl).
Defined.
